(** * AGI-lab: the debate / memory-filter / drift / trainer pipeline

    A shallow embedding of the core pipeline of the repository
    (debate.py, memoryloop.py, validator.py, drift.py, trainer.py,
    metrics.py, mood.py) together with the properties the design
    document states about it.

    Modelling conventions, used throughout:
    - The numbers of the metric dictionaries and the confidences are
      exact rationals [Q]; a decimal literal such as [0.4] is the rational
      [4/10], and their comparisons are the mathematical ones.
    - The credits and deltas of trainer.py and metrics.py, which are
      accumulated by repeated addition and then compared with a
      threshold, are floats: values of [Float.t] under the operations of
      [Float.Ops].  [Float.binary64] gives these operations their IEEE 754
      double precision meaning, rounding included.
    - A Python [str] is a [string]; each character is read as one code
      point below 256.
    - A dictionary read with [d.get(k, default)] is a record whose field
      [k] is an [option]: [None] is the absent key.
    - Exceptions are values of [exn]; a computation that can raise returns
      [result A]. *)

From Stdlib Require Import ZArith QArith Qabs Lia Bool Ascii String.
From Stdlib Require SpecFloat.
From stdpp Require Import gmap strings list pretty.

#[local] Open Scope Q_scope.
#[local] Open Scope string_scope.
#[local] Open Scope list_scope.

(** ** Python prelude *)

Module Py.

(** Strict comparison of two numbers, as a boolean ([x < y]). *)
Definition ltb (x y : Q) : bool := negb (Qle_bool y x).

(** [x > y]. *)
Definition gtb (x y : Q) : bool := ltb y x.

(** [float(n)] / [n] used as a number, for a length or a count. *)
Definition of_nat (n : nat) : Q := inject_Z (Z.of_nat n).

(** [sum(xs)], left to right from [0]. *)
Definition sum (xs : list Q) : Q := fold_left Qplus xs 0.

(** The line feed character. *)
Definition LF : ascii := ascii_of_nat 10.
Definition CR : ascii := ascii_of_nat 13.

(** Characters for which [str.isspace()] holds: those [str.strip()]
    removes and the regular expression class backslash-s matches. *)
Definition is_space (c : ascii) : bool :=
  let n := nat_of_ascii c in
  ((9 <=? n) && (n <=? 13) || (28 <=? n) && (n <=? 32)
   || (n =? 133) || (n =? 160))%nat.

Fixpoint lstrip (s : list ascii) : list ascii :=
  match s with
  | c :: s' => if is_space c then lstrip s' else s
  | [] => []
  end.

(** [s.strip()], on the list of characters. *)
Definition strip_chars (s : list ascii) : list ascii :=
  rev (lstrip (rev (lstrip s))).

(** [s.strip()]. *)
Definition strip (s : string) : string :=
  string_of_list_ascii (strip_chars (list_ascii_of_string s)).

(** The exceptions the modelled code can meet. *)
Inductive exn :=
| IndexError
| KeyError (key : string)
| TypeError
| AttributeError
| ValueError
| RuntimeError (msg : string).

(** A computation that returns a value ([inr]) or raises ([inl]). *)
Definition result (A : Type) : Type := exn + A.

Definition ret {A} (a : A) : result A := inr a.
Definition raise {A} (e : exn) : result A := inl e.
Definition bind {A B} (m : result A) (k : A -> result B) : result B :=
  match m with
  | inl e => inl e
  | inr a => k a
  end.

End Py.

Notation "x <- m ;;; k" := (Py.bind m (fun x => k))
  (at level 100, m at next level, right associativity, only parsing).

(** ** Floats *)

Module Float.

(** The operations the code applies to floats: the conversion [float(n)]
    of an int, [x + y], [x / y], [x < y] and [x <= y]. *)
Record Ops := {
  t : Type;
  of_int : Z -> t;
  add : t -> t -> t;
  div : t -> t -> t;
  ltb : t -> t -> bool;
  leb : t -> t -> bool }.

Arguments of_int {_} _.
Arguments add {_} _ _.
Arguments div {_} _ _.
Arguments ltb {_} _ _.
Arguments leb {_} _ _.

Section Literals.

Context {F : Ops}.

(** The literals [0.0], [1.0] and [1000.0]. *)
Definition zero : t F := of_int 0.
Definition one : t F := of_int 1.
Definition thousand : t F := of_int 1000.

(** [x > y]. *)
Definition gtb (x y : t F) : bool := ltb y x.

End Literals.

(** What the order of floats and a correctly rounded sum of non-negative
    floats satisfy: rounding is monotone and leaves a float in place, so
    adding a non-negative float never lowers a non-negative one, and
    preserves the order of two of them. *)
Record Laws (F : Ops) : Prop := {
  leb_zero : leb (@zero F) zero = true;
  leb_trans : forall x y z : t F,
    leb x y = true -> leb y z = true -> leb x z = true;
  add_increases : forall x d : t F,
    leb zero x = true -> leb zero d = true -> leb x (add x d) = true;
  add_monotone : forall x y d : t F,
    leb zero x = true -> leb x y = true -> leb zero d = true ->
    leb (add x d) (add y d) = true;
  div_nonneg : forall n : Z,
    (0 <= n)%Z -> leb (@zero F) (div (of_int n) thousand) = true }.

(** IEEE 754 double precision, round to nearest even: 53 bits of
    precision, exponents below 1024.  [of_int] is the conversion of an
    int within the range of a float, as every length is. *)
Definition prec : Z := 53.
Definition emax : Z := 1024.

Definition binary64 : Ops :=
  {| t := SpecFloat.spec_float;
     of_int := fun n => SpecFloat.binary_normalize prec emax n 0 false;
     add := SpecFloat.SFadd prec emax;
     div := SpecFloat.SFdiv prec emax;
     ltb := SpecFloat.SFltb;
     leb := SpecFloat.SFleb |}.

(** Exact arithmetic: the rationals, with no rounding. *)
Definition exact : Ops :=
  {| t := Q;
     of_int := inject_Z;
     add := Qplus;
     div := Qdiv;
     ltb := Py.ltb;
     leb := Qle_bool |}.

End Float.

(** ** drift.py *)

Module Drift.

(** The metric dictionary of one cycle, and of a summary.  Each of the
    three keys may be absent. *)
Record Metrics := {
  agreement_rate : option Q;
  guardian_override_rate : option Q;
  avg_response_length_delta : option Q }.

(** [collections.deque(maxlen=n).append(x)]: the element is appended on
    the right, and when the deque then holds more than [maxlen] elements
    the leftmost one is dropped. *)
Definition deque_append {A} (maxlen : nat) (d : list A) (x : A) : list A :=
  let d' := d ++ [x] in
  if (maxlen <? length d')%nat then tail d' else d'.

(** [class DriftWindow]. *)
Record DriftWindow := { size : nat; _window : list Metrics }.

(** [DriftWindow.__init__(size)]: [deque(maxlen=size)] raises
    [ValueError] on a negative [size], so no window is built then. *)
Definition DriftWindow_init (sz : Z) : option DriftWindow :=
  if (sz <? 0)%Z then None
  else Some {| size := Z.to_nat sz; _window := [] |}.

(** [DriftWindow.update]. *)
Definition update (w : DriftWindow) (metrics : Metrics) : DriftWindow :=
  {| size := size w; _window := deque_append (size w) (_window w) metrics |}.

(** The three accumulators of [compute_summary], in the order of [keys]. *)
Definition add_sample (s : Q * Q * Q) (m : Metrics) : Q * Q * Q :=
  let '(a, g, d) := s in
  (a + default 0 (agreement_rate m),
   g + default 0 (guardian_override_rate m),
   d + default 0 (avg_response_length_delta m)).

(** [DriftWindow.compute_summary]. *)
Definition compute_summary (w : DriftWindow) : Metrics :=
  match _window w with
  | [] => {| agreement_rate := Some 0;
             guardian_override_rate := Some 0;
             avg_response_length_delta := Some 0 |}
  | _ :: _ =>
      let '(a, g, d) := fold_left add_sample (_window w) (0, 0, 0) in
      let n := Py.of_nat (length (_window w)) in
      {| agreement_rate := Some (a / n);
         guardian_override_rate := Some (g / n);
         avg_response_length_delta := Some (d / n) |}
  end.

(** [check_drift]. *)
Definition check_drift (metrics : Metrics) : bool :=
  let drift := false in
  let drift :=
    if Py.ltb (default 1 (agreement_rate metrics)) (4 # 10)
    then true else drift in
  let drift :=
    if Py.gtb (default 0 (guardian_override_rate metrics)) (5 # 10)
    then true else drift in
  let drift :=
    if Py.gtb (default 0 (avg_response_length_delta metrics)) 100
    then true else drift in
  drift.

(** A window after a sequence of [update] calls. *)
Definition updates (w : DriftWindow) (samples : list Metrics) : DriftWindow :=
  fold_left update samples w.

(** Arithmetic mean of one field over a list of samples, an absent field
    counting as [0]. *)
Definition field_mean (f : Metrics -> option Q) (l : list Metrics) : Q :=
  Py.sum (map (fun m => default 0 (f m)) l) / Py.of_nat (length l).

(** A sample with the three fields present. *)
Definition sample (a g d : Q) : Metrics :=
  {| agreement_rate := Some a;
     guardian_override_rate := Some g;
     avg_response_length_delta := Some d |}.

End Drift.

(** ** random.Random *)

Module Rng.

(** The state of a [random.Random] object: the raw draws it will deliver
    (fixed by the seed) and how many of them have been consumed. *)
Record Random := { draws : nat -> nat; pos : nat }.

(** [rng._randbelow(n)] for a positive [n]: the next draw, reduced below
    [n]; the generator advances by one. *)
Definition _randbelow (rng : Random) (n : nat) : nat * Random :=
  ((draws rng (pos rng) mod n)%nat,
   {| draws := draws rng; pos := S (pos rng) |}).

(** [rng.choice(seq)] on the non-empty sequence [x :: xs]:
    [seq[rng._randbelow(len(seq))]]. *)
Definition choice {A} (rng : Random) (x : A) (xs : list A) : A * Random :=
  let '(i, rng') := _randbelow rng (S (length xs)) in
  (nth i (x :: xs) x, rng').

End Rng.

(** ** mood.py *)

Module Mood.

Definition MOODS : list string :=
  ["critical"; "optimistic"; "skeptical"; "creative"; "analytical"].

(** [pick_mood(rng)]. *)
Definition pick_mood (rng : Rng.Random) : string * Rng.Random :=
  Rng.choice rng "critical"
    ["optimistic"; "skeptical"; "creative"; "analytical"].

End Mood.

(** ** debate.py *)

Module Debate.
Import Py.

Record message := { role : string; content : string }.

(** What an agent call answers: a dictionary that may carry a [choices]
    list, each choice holding its message content; [repr] is [str(resp)],
    read when the key [choices] is absent. *)
Record response := { choices : option (list string); repr : string }.

(** An agent, [LLMFunc].  It is an external service: what it answers may
    change from one invocation to the next, so it is a function of the
    invocation number ([0] for the first call) and of the keyword
    arguments [messages] and [mood_prompt]. *)
Definition LLMFunc : Type := nat -> list message -> string -> result response.

Definition MoodPicker : Type := Rng.Random -> string * Rng.Random.

(** [resp.get("choices", [{"message": {"content": str(resp)}}])[0]["message"]["content"]]:
    an empty [choices] list raises [IndexError]. *)
Definition extract_text (resp : response) : result string :=
  match choices resp with
  | None => ret (repr resp)
  | Some [] => raise IndexError
  | Some (c :: _) => ret c
  end.

(** The arguments [debate_once] passes to an agent primed with [mood]. *)
Definition user_prompt (user_input : string) : message :=
  {| role := "user"; content := user_input |}.

Definition mood_prompt (mood : string) : string :=
  "You feel " +:+ mood +:+ " today.".

(** Which of the two concurrently running agent calls finishes first. *)
Inductive completion := AFirst | BFirst.

(** [await asyncio.gather(ta, tb)]: both results, in argument order, once
    both calls have returned; the exception of the call that fails first
    otherwise. *)
Definition gather {A B} (first : completion) (ra : result A) (rb : result B)
  : result (A * B) :=
  match first with
  | AFirst => a <- ra ;;; b <- rb ;;; ret (a, b)
  | BFirst => b <- rb ;;; a <- ra ;;; ret (a, b)
  end.

(** The dictionary [debate_once] returns. *)
Record DebateOutcome := {
  input : string;
  mood_a : string;
  resp_a : string;
  mood_b : string;
  resp_b : string;
  winner : string;
  reasoning : string }.

(** [debate_once].  The generator is returned with the outcome, since
    the calls advance it. *)
Definition debate_once (user_input : string) (rng : Rng.Random)
    (llama_a llama_b : LLMFunc) (pick_mood : MoodPicker)
    (first : completion) : result DebateOutcome * Rng.Random :=
  let '(mood_a, rng) := pick_mood rng in
  let '(mood_b, rng) := pick_mood rng in
  let prompt := user_prompt user_input in
  match
    gather first
      (llama_a 0%nat [prompt] (mood_prompt mood_a))
      (llama_b 0%nat [prompt] (mood_prompt mood_b))
  with
  | inl e => (raise e, rng)
  | inr (resp_a, resp_b) =>
      match extract_text resp_a with
      | inl e => (raise e, rng)
      | inr text_a =>
          match extract_text resp_b with
          | inl e => (raise e, rng)
          | inr text_b =>
              let diff :=
                Z.abs (Z.of_nat (String.length text_a)
                       - Z.of_nat (String.length text_b)) in
              let '(winner, reasoning, rng) :=
                if (diff <? 10)%Z then
                  let '(w, rng) := Rng.choice rng "A" ["B"] in
                  (w, "similar length; random tie break", rng)
                else
                  (if (String.length text_b <? String.length text_a)%nat
                   then "A" else "B",
                   "longer answer preferred", rng) in
              (ret {| input := user_input;
                      mood_a := mood_a;
                      resp_a := text_a;
                      mood_b := mood_b;
                      resp_b := text_b;
                      winner := winner;
                      reasoning := reasoning |}, rng)
          end
      end
  end.

(** A text of [n] characters, and an agent that always answers with one
    choice holding a given text (used in the examples). *)
Definition text_of_length (n : nat) : string :=
  String.string_of_list_ascii (repeat "x"%char n).

Definition answering (text : string) : LLMFunc :=
  fun _ _ _ => ret {| choices := Some [text]; repr := EmptyString |}.

Definition failing (msg : string) : LLMFunc :=
  fun _ _ _ => raise (RuntimeError msg).

(** An agent that fails on its first invocation and would answer on the
    second one. *)
Definition flaky (text : string) : LLMFunc :=
  fun attempt msgs mp =>
    match attempt with
    | O => raise (RuntimeError "connection refused")
    | S _ => answering text attempt msgs mp
    end.

(** A generator whose draws are all [k]. *)
Definition constant_rng (k : nat) : Rng.Random :=
  {| Rng.draws := fun _ => k; Rng.pos := 0 |}.

End Debate.

(** ** difflib.SequenceMatcher (Python standard library)

    [SequenceMatcher(None, a, b).ratio()] as CPython computes it: no
    junk predicate, [autojunk] left at its default. *)

Module Difflib.

Fixpoint indices_from (elt : ascii) (b : list ascii) (i : nat) : list nat :=
  match b with
  | [] => []
  | c :: b' =>
      if Ascii.eqb c elt then i :: indices_from elt b' (S i)
      else indices_from elt b' (S i)
  end.

(** [b2j.get(elt, [])] after [__chain_b]: the positions of [elt] in [b],
    ascending; none when [b] has 200 elements or more and [elt] occurs
    more than [len(b) // 100 + 1] times (a "popular" element). *)
Definition b2j (b : list ascii) (elt : ascii) : list nat :=
  let idxs := indices_from elt b 0 in
  let n := length b in
  if (200 <=? n)%nat && (n / 100 + 1 <? length idxs)%nat then [] else idxs.

(** [a[i] == b[j]], both indices in range. *)
Definition same_at (a b : list ascii) (i j : nat) : bool :=
  match a !! i, b !! j with
  | Some x, Some y => Ascii.eqb x y
  | _, _ => false
  end.

(** The inner [for j in b2j.get(a[i], nothing)] loop of
    [find_longest_match]; the state is [newj2len] and the best block. *)
Fixpoint row (i blo bhi : nat) (j2len : gmap nat nat) (js : list nat)
    (st : gmap nat nat * (nat * nat * nat)) : gmap nat nat * (nat * nat * nat) :=
  match js with
  | [] => st
  | j :: js' =>
      if (j <? blo)%nat then row i blo bhi j2len js' st
      else if (bhi <=? j)%nat then st
      else
        let '(newj2len, (besti, bestj, bestsize)) := st in
        let k := (match j with
                  | O => 0
                  | S j' => default 0 (j2len !! j')
                  end + 1)%nat in
        let best :=
          if (bestsize <? k)%nat then (i + 1 - k, j + 1 - k, k)%nat
          else (besti, bestj, bestsize) in
        row i blo bhi j2len js' (<[j := k]> newj2len, best)
  end.

(** The outer [for i in range(alo, ahi)] loop; [a_rest] is [a[i:ahi]]. *)
Fixpoint rows (a_rest b : list ascii) (i blo bhi : nat) (j2len : gmap nat nat)
    (best : nat * nat * nat) : nat * nat * nat :=
  match a_rest with
  | [] => best
  | ai :: a_rest' =>
      let '(newj2len, best') := row i blo bhi j2len (b2j b ai) (∅, best) in
      rows a_rest' b (S i) blo bhi newj2len best'
  end.

(** The first [while] loop: extend the block to the left over matching
    elements. *)
Fixpoint extend_left (fuel : nat) (a b : list ascii) (alo blo : nat)
    (best : nat * nat * nat) : nat * nat * nat :=
  let '(besti, bestj, bestsize) := best in
  match fuel with
  | O => best
  | S fuel' =>
      if (alo <? besti)%nat && (blo <? bestj)%nat
         && same_at a b (besti - 1) (bestj - 1)
      then extend_left fuel' a b alo blo
             (besti - 1, bestj - 1, bestsize + 1)%nat
      else best
  end.

(** The second [while] loop: extend it to the right. *)
Fixpoint extend_right (fuel : nat) (a b : list ascii) (ahi bhi : nat)
    (best : nat * nat * nat) : nat * nat * nat :=
  let '(besti, bestj, bestsize) := best in
  match fuel with
  | O => best
  | S fuel' =>
      if (besti + bestsize <? ahi)%nat && (bestj + bestsize <? bhi)%nat
         && same_at a b (besti + bestsize) (bestj + bestsize)
      then extend_right fuel' a b ahi bhi (besti, bestj, bestsize + 1)%nat
      else best
  end.

(** [find_longest_match(alo, ahi, blo, bhi)].  The two last [while]
    loops of the source extend over junk elements only; there are none.
    Each loop runs at most [besti], resp. [ahi], times. *)
Definition find_longest_match (a b : list ascii) (alo ahi blo bhi : nat)
  : nat * nat * nat :=
  let best := rows (drop alo (take ahi a)) b alo blo bhi ∅ (alo, blo, 0%nat) in
  let best := extend_left (fst (fst best)) a b alo blo best in
  extend_right ahi a b ahi bhi best.

(** The [while queue] loop of [get_matching_blocks]; the head of the
    list is the top of the stack.  Every block found is non-empty and the
    blocks are disjoint, so the loop body runs at most
    [len(a) + len(b) + 1] times. *)
Fixpoint matching_loop (fuel : nat) (a b : list ascii)
    (queue : list (nat * nat * nat * nat))
    (matching_blocks : list (nat * nat * nat)) : list (nat * nat * nat) :=
  match fuel with
  | O => matching_blocks
  | S fuel' =>
      match queue with
      | [] => matching_blocks
      | (alo, ahi, blo, bhi) :: queue' =>
          let '(i, j, k) := find_longest_match a b alo ahi blo bhi in
          if (k =? 0)%nat then matching_loop fuel' a b queue' matching_blocks
          else
            let queue1 :=
              if (alo <? i)%nat && (blo <? j)%nat
              then (alo, i, blo, j) :: queue' else queue' in
            let queue2 :=
              if (i + k <? ahi)%nat && (j + k <? bhi)%nat
              then (i + k, ahi, j + k, bhi)%nat :: queue1 else queue1 in
            matching_loop fuel' a b queue2 (matching_blocks ++ [(i, j, k)])
      end
  end.

(** The number of matched elements: the sum of the block sizes (sorting
    the blocks and merging adjacent ones keeps the sum). *)
Definition matches (a b : list ascii) : nat :=
  let la := length a in
  let lb := length b in
  foldr (fun blk acc => (snd blk + acc)%nat) 0%nat
    (matching_loop (S (la + lb)) a b [(0, la, 0, lb)%nat] []).

(** [SequenceMatcher(None, a, b).ratio()]. *)
Definition ratio (a b : string) : Q :=
  let a := list_ascii_of_string a in
  let b := list_ascii_of_string b in
  let length := (length a + length b)%nat in
  if (length =? 0)%nat then 1
  else 2 * Py.of_nat (matches a b) / Py.of_nat length.

End Difflib.

(** ** memoryloop.py *)

Module MemoryLoop.

(** [class Tag(enum.Enum)] and the [.value] of each member. *)
Inductive Tag := KNOWN | NEW | DISCARD | FALSE.

Definition Tag_value (t : Tag) : string :=
  match t with
  | KNOWN => "known"
  | NEW => "new"
  | DISCARD => "discard"
  | FALSE => "false"
  end.

(** The class [[.?!]]. *)
Definition is_terminator (c : ascii) : bool :=
  (Ascii.eqb c "." || Ascii.eqb c "?" || Ascii.eqb c "!")%char.

(** [re.split] on a terminator followed by one or more spaces, scanning
    left to right.  [skipping] holds while the spaces of the separator
    just found are being consumed; [cur] is the piece under construction,
    reversed. *)
Fixpoint split_go (skipping : bool) (cur : list ascii) (s : list ascii)
  : list (list ascii) :=
  match s with
  | [] => [rev cur]
  | c :: s' =>
      if skipping && Py.is_space c then split_go true cur s'
      else if is_terminator c
              && match s' with
                 | r :: _ => Py.is_space r
                 | [] => false
                 end
      then rev cur :: split_go true [] s'
      else split_go false (c :: cur) s'
  end.

(** [split_into_chunks]. *)
Definition split_into_chunks (text : string) : list string :=
  map string_of_list_ascii
    (split_go false [] (Py.strip_chars (list_ascii_of_string text))).

(** One entry of the list [tag_with_local_model] returns. *)
Record Tagged := { text : string; tag : string }.

(** [max(xs, default=d)]: the first maximal element. *)
Definition py_max (xs : list Q) (d : Q) : Q :=
  match xs with
  | [] => d
  | x :: xs' => fold_left (fun m y => if Py.gtb y m then y else m) xs' x
  end.

(** The best similarity of chunk [c] against the seen set. *)
Definition best_similarity (ratio : string -> string -> Q)
    (seen : gset string) (c : string) : Q :=
  py_max (map (ratio c) (elements seen)) 0.

(** [tag_with_local_model]; the module-level set [_SEEN] is passed in
    and returned. *)
Fixpoint tag_with_local_model (ratio : string -> string -> Q)
    (_SEEN : gset string) (chunks : list string)
  : list Tagged * gset string :=
  match chunks with
  | [] => ([], _SEEN)
  | c :: chunks' =>
      let sim := best_similarity ratio _SEEN c in
      let tag :=
        if Py.gtb sim (8 # 10) then Tag_value KNOWN else Tag_value NEW in
      let '(results, seen') :=
        tag_with_local_model ratio ({[c]} ∪ _SEEN) chunks' in
      ({| text := c; tag := tag |} :: results, seen')
  end.

(** The dictionary a guardian function returns; every key may be
    absent. *)
Record Verdict := {
  verdict : option string;
  rationale : option string;
  confidence : option Q }.

Record ValidatedItem := { v_text : string; v_tag : string; v_confidence : Q }.
Record RejectedItem := { r_text : string; r_reason : string }.

Record FilterResult := {
  validated : list ValidatedItem;
  rejected : list RejectedItem;
  overall_confidence : Q }.

Section FilterMemory.

(** The consensus engine is defined in the module [memory_debate],
    outside the files embedded here, and talks to two language models;
    the guardian is supplied by the caller and talks to an external
    arbiter.  Both are taken as parameters acting on the state [World] of
    these services.
    [debate_candidate world id text] is
    [engine.debate_candidate(CandidateMemory(id, text))]: the status it
    returns and the [debate_log] it leaves on the candidate. *)
Context {World Log : Type}.
Variable debate_candidate : World -> string -> string -> string * Log * World.
Variable guardian_fn : World -> string -> Log -> Verdict * World.

(** The three lists the loop of [filter_memory] appends to. *)
Definition Buckets : Type :=
  list ValidatedItem * list RejectedItem * list Q.

(** One iteration of [for idx, item in enumerate(tagged)]. *)
Definition filter_step (idx : nat) (item : Tagged) (st : Buckets * World)
  : Buckets * World :=
  let '((validated, rejected, confidences), world) := st in
  let '(status, debate_log, world) :=
    debate_candidate world (pretty idx) (text item) in
  if negb (String.eqb status "ACCEPTED") then
    ((validated,
      rejected ++ [{| r_text := text item; r_reason := status |}],
      confidences), world)
  else
    let '(v, world) := guardian_fn world (text item) debate_log in
    if bool_decide (verdict v = Some "reject") then
      ((validated,
        rejected ++ [{| r_text := text item;
                        r_reason := default EmptyString (rationale v) |}],
        confidences), world)
    else
      ((validated ++ [{| v_text := text item;
                         v_tag := tag item;
                         v_confidence := default 0 (confidence v) |}],
        rejected,
        confidences ++ [default 0 (confidence v)]), world).

Fixpoint filter_loop (idx : nat) (tagged : list Tagged) (st : Buckets * World)
  : Buckets * World :=
  match tagged with
  | [] => st
  | item :: tagged' => filter_loop (S idx) tagged' (filter_step idx item st)
  end.

(** The candidates of a debate outcome: the non-empty chunks of its
    reasoning. *)
Definition candidates (debate_json : Debate.DebateOutcome) : list string :=
  filter (fun c => c <> EmptyString)
    (split_into_chunks (Debate.reasoning debate_json)).

(** [filter_memory], with the seen set and the services' state passed in
    and returned. *)
Definition filter_memory (ratio : string -> string -> Q)
    (debate_json : Debate.DebateOutcome) (_SEEN : gset string) (world : World)
  : FilterResult * gset string * World :=
  let '(tagged, seen') :=
    tag_with_local_model ratio _SEEN (candidates debate_json) in
  let '((validated, rejected, confidences), world') :=
    filter_loop 0 tagged (([], [], []), world) in
  let avg_conf :=
    match confidences with
    | [] => 0
    | _ :: _ => Py.sum confidences / Py.of_nat (length confidences)
    end in
  ({| validated := validated;
      rejected := rejected;
      overall_confidence := avg_conf |}, seen', world').

End FilterMemory.

(** An engine that accepts every candidate and a guardian that rejects
    one given text and is unsure about every other one (used in the
    examples); the services have no state there. *)
Definition accepting_engine (_ : unit) (id text : string)
  : string * list string * unit :=
  ("ACCEPTED", ["A: ACCEPT"; "B: ACCEPT"], tt).

Definition guardian_rejecting (bad : string) (_ : unit) (text : string)
    (_ : list string) : Verdict * unit :=
  (if String.eqb text bad
   then {| verdict := Some "reject";
           rationale := Some "contradicts the record";
           confidence := Some (95 # 100) |}
   else {| verdict := Some "unsure";
           rationale := None;
           confidence := Some (9 # 10) |}, tt).

(** An engine that never reaches agreement. *)
Definition deadlocked_engine (_ : unit) (id text : string)
  : string * list string * unit :=
  ("DEADLOCKED", ["A: ACCEPT"; "B: REJECT"], tt).

Definition outcome_with_reasoning (reasoning : string) : Debate.DebateOutcome :=
  {| Debate.input := "q";
     Debate.mood_a := "critical";
     Debate.resp_a := "a";
     Debate.mood_b := "creative";
     Debate.resp_b := "b";
     Debate.winner := "A";
     Debate.reasoning := reasoning |}.

End MemoryLoop.

(** ** config.py *)

Module Config.

(** The fields of [Settings] the pipeline reads. *)
Record Settings := {
  model_a_name : string;
  model_b_name : string;
  guardian_model : string;
  max_tokens_guardian : Z;
  drift_window_size : Z }.

(** The hard-coded defaults. *)
Definition defaults : Settings :=
  {| model_a_name := "llama3";
     model_b_name := "llama3";
     guardian_model := "gpt-4o";
     max_tokens_guardian := 2048;
     drift_window_size := 100 |}.

End Config.

(** ** validator.py *)

Module Validator.
Import Py.

(** A value of the arbiter's JSON answer. *)
Inductive pyval :=
| PNone
| PBool (b : bool)
| PNum (q : Q)
| PStr (s : string)
| PList (l : list pyval)
| PDict (d : list (string * pyval)).

Fixpoint assoc (key : string) (d : list (string * pyval)) : option pyval :=
  match d with
  | [] => None
  | (k, v) :: d' => if String.eqb k key then Some v else assoc key d'
  end.

(** [v[key]] for a string key. *)
Definition getitem (v : pyval) (key : string) : result pyval :=
  match v with
  | PDict d =>
      match assoc key d with
      | Some x => ret x
      | None => raise (KeyError key)
      end
  | _ => raise TypeError
  end.

(** [v[0]]. *)
Definition getitem0 (v : pyval) : result pyval :=
  match v with
  | PList (x :: _) => ret x
  | PList [] => raise IndexError
  | PStr (String c _) => ret (PStr (String c EmptyString))
  | PStr EmptyString => raise IndexError
  | PDict _ => raise (KeyError "0")
  | _ => raise TypeError
  end.

(** Line boundaries of [str.splitlines()]. *)
Definition is_linebreak (c : ascii) : bool :=
  let n := nat_of_ascii c in
  ((10 <=? n) && (n <=? 13) || (28 <=? n) && (n <=? 30) || (n =? 133))%nat.

(** [s.splitlines()] on the characters of [s]; [cur] is the line under
    construction, reversed.  A carriage return followed by a line feed is
    one boundary. *)
Fixpoint splitlines_go (cur : list ascii) (s : list ascii) : list string :=
  match s with
  | [] =>
      match cur with
      | [] => []
      | _ :: _ => [string_of_list_ascii (rev cur)]
      end
  | c :: s' =>
      if is_linebreak c then
        string_of_list_ascii (rev cur)
        :: match s' with
           | c' :: s'' =>
               if Ascii.eqb c CR && Ascii.eqb c' LF
               then splitlines_go [] s''
               else splitlines_go [] s'
           | [] => splitlines_go [] s'
           end
      else splitlines_go (c :: cur) s'
  end.

(** [content.splitlines()]: only a [str] has the method. *)
Definition splitlines (content : pyval) : result (list string) :=
  match content with
  | PStr s => ret (splitlines_go [] (list_ascii_of_string s))
  | _ => raise AttributeError
  end.

(** [c.upper()] and [c.lower()] of one character. *)
Definition upper_char (c : ascii) : ascii :=
  let n := nat_of_ascii c in
  if ((97 <=? n) && (n <=? 122))%nat then ascii_of_nat (n - 32) else c.

Definition lower_char (c : ascii) : ascii :=
  let n := nat_of_ascii c in
  if ((65 <=? n) && (n <=? 90)
      || (192 <=? n) && (n <=? 222) && negb (n =? 215))%nat
  then ascii_of_nat (n + 32) else c.

Fixpoint map_string (f : ascii -> ascii) (s : string) : string :=
  match s with
  | EmptyString => EmptyString
  | String c s' => String (f c) (map_string f s')
  end.

(** [line.upper()], as far as a comparison with a prefix made of the
    letters A to Z and a colon can tell: the letters a to z are raised,
    every other character is left alone. *)
Definition upper : string -> string := map_string upper_char.

(** [s.lower()]. *)
Definition lower : string -> string := map_string lower_char.

(** [line.split(":", 1)[1]]: what follows the first colon; [IndexError]
    when the line has none. *)
Fixpoint after_colon (line : string) : result string :=
  match line with
  | EmptyString => raise IndexError
  | String c line' => if Ascii.eqb c ":" then ret line' else after_colon line'
  end.

Section Validate.

(** Python floats are kept abstract here: [float_of_string s] is
    [float(s)], [None] standing for [ValueError], and [zero] is [0.0]. *)
Context {float : Type}.
Variable float_of_string : string -> option float.
Variable zero : float.

(** The dictionary [validate] returns. *)
Record Verdict := {
  verdict : string;
  rationale : string;
  confidence : float }.

(** The body of [for line in content.splitlines()]: the three variables
    [verdict], [rationale], [conf] after one more line. *)
Definition parse_line (st : string * string * float) (line : string)
  : result (string * string * float) :=
  let '(verdict, rationale, conf) := st in
  if String.prefix "VERDICT:" (upper line) then
    v <- after_colon line ;;; ret (lower (strip v), rationale, conf)
  else if String.prefix "RATIONALE:" (upper line) then
    r <- after_colon line ;;; ret (verdict, strip r, conf)
  else if String.prefix "CONFIDENCE:" (upper line) then
    c <- after_colon line ;;;
    match float_of_string (strip c) with
    | Some f => ret (verdict, rationale, f)
    | None => ret (verdict, rationale, conf)
    end
  else ret st.

(** A line of the arbiter's answer does not name the given field. *)
Definition lacks (field : string) (line : string) : Prop :=
  String.prefix field (upper line) = false.

(** A line gives no usable confidence: it is not a CONFIDENCE line, or
    what follows its colon is not a number. *)
Definition no_confidence (line : string) : Prop :=
  String.prefix "CONFIDENCE:" (upper line) = true ->
  forall rest, after_colon line = ret rest ->
               float_of_string (strip rest) = None.

Fixpoint parse_lines (st : string * string * float) (lines : list string)
  : result (string * string * float) :=
  match lines with
  | [] => ret st
  | line :: lines' => st' <- parse_line st line ;;; parse_lines st' lines'
  end.

(** From [content = response["choices"][0]["message"]["content"]] to the
    [return] inside the [try] block. *)
Definition parse_response (response : pyval) : result Verdict :=
  choices <- getitem response "choices" ;;;
  choice <- getitem0 choices ;;;
  message <- getitem choice "message" ;;;
  content <- getitem message "content" ;;;
  lines <- splitlines content ;;;
  st <- parse_lines ("unsure", EmptyString, zero) lines ;;;
  let '(verdict, rationale, conf) := st in
  ret {| verdict := verdict; rationale := rationale; confidence := conf |}.

(** [_build_messages_from_payload]; [payload] is the text [str(payload)]
    of the payload dictionary.  A slice [text[:n]] with a negative [n]
    stops [-n] characters before the end. *)
Definition slice_to (n : Z) (text : string) : string :=
  let len := Z.of_nat (String.length text) in
  let stop := if (n <? 0)%Z then Z.max 0 (len + n) else n in
  String.substring 0 (Z.to_nat stop) text.

Definition _build_messages_from_payload (settings : Config.Settings)
    (payload : string) : list Debate.message :=
  let text := payload in
  let text :=
    if (Config.max_tokens_guardian settings <? Z.of_nat (String.length text))%Z
    then slice_to (Config.max_tokens_guardian settings) text
    else text in
  [ {| Debate.role := "system";
       Debate.content := "You are a neutral validator of AI responses." |};
    {| Debate.role := "user";
       Debate.content := "Evaluate this:" +:+ String LF text |} ].

(** The external arbiter, [openai.ChatCompletion.create]: what the call
    number [attempt] does when given the model name and the messages. *)
Variable create : nat -> string -> list Debate.message -> result pyval.

(** The body of the [try] block on one attempt. *)
Definition attempt_once (settings : Config.Settings) (attempt : nat)
    (messages : list Debate.message) : result Verdict :=
  response <- create attempt (Config.guardian_model settings) messages ;;;
  parse_response response.

(** The [for attempt in range(retries)] loop: [remaining] attempts are
    left, the next one is number [attempt]; [sleeps] records the calls to
    [time.sleep].  [None] when the loop runs to its end. *)
Fixpoint retry_loop (settings : Config.Settings)
    (messages : list Debate.message) (remaining attempt delay : nat)
    (sleeps : list nat) : option Verdict * list nat :=
  match remaining with
  | O => (None, sleeps)
  | S remaining' =>
      match attempt_once settings attempt messages with
      | inr v => (Some v, sleeps)
      | inl _ =>
          retry_loop settings messages remaining' (S attempt) (delay * 2)
            (sleeps ++ [delay])
      end
  end.

Definition unsure (why : string) : Verdict :=
  {| verdict := "unsure"; rationale := why; confidence := zero |}.

(** [os.getenv(key)]: the key has to be a [str]; any other value makes
    [os.environ] raise [TypeError]. *)
Definition getenv (environ : gmap string string) (key : pyval)
  : result (option string) :=
  match key with
  | PStr k => ret (environ !! k)
  | _ => raise TypeError
  end.

(** [validate(payload, api_key_env)].  [openai_available] tells whether
    the import of the [openai] package succeeded and [environ] is
    [os.environ].  The result comes with the list of sleeps made.  The
    read of the environment stands before the [try] block, and nothing
    catches what it raises. *)
Definition validate (settings : Config.Settings) (openai_available : bool)
    (environ : gmap string string) (payload : string) (api_key_env : pyval)
  : result Verdict * list nat :=
  if negb openai_available then (ret (unsure "openai unavailable"), [])
  else
    match getenv environ api_key_env with
    | inl e => (raise e, [])
    | inr (None | Some EmptyString) => (ret (unsure "missing API key"), [])
    | inr (Some (String _ _)) =>
        let messages := _build_messages_from_payload settings payload in
        let retries := 3%nat in
        let delay := 2%nat in
        match retry_loop settings messages retries 0 delay [] with
        | (Some v, sleeps) => (ret v, sleeps)
        | (None, sleeps) =>
            (ret (unsure "Validator unreachable after retries."), sleeps)
        end
    end.

End Validate.

(** An arbiter answer whose first choice carries [content] and an arbiter
    that gives it on every call (used in the examples). *)
Definition chat_completion (content : string) : pyval :=
  PDict [("choices", PList [PDict [("message", PDict [("content", PStr content)])]])].

Definition arbiter_down : nat -> string -> list Debate.message -> result pyval :=
  fun _ _ _ => raise (RuntimeError "connection refused").

(** A stand-in for [float] that reads two numerals only. *)
Definition toy_float (s : string) : option Q :=
  if String.eqb s "0.9" then Some (9 # 10)
  else if String.eqb s "1" then Some 1
  else None.

(** Three lines: a verdict in mixed case, a rationale, and a confidence
    that is not a number. *)
Definition sloppy_answer : string :=
  "Verdict:  REJECT " +:+ String LF
    ("rationale: too vague" +:+ String LF "CONFIDENCE: high").

Definition environ_with_key : gmap string string :=
  {[ "OPENAI_API_KEY" := "sk-test" ]}.

(** The default of the parameter [api_key_env]. *)
Definition default_key_env : pyval := PStr "OPENAI_API_KEY".

(** A debate log, the list [filter_memory] hands to its guardian as the
    second argument. *)
Definition debate_log : pyval :=
  PList [PStr "A: water is wet"; PStr "B: water is not wet"].

End Validator.

(** ** metrics.py *)

Module Metrics.

Section WithFloat.

Context {F : Float.Ops}.

(** One entry of the metrics log: the accumulated delta of a model and
    its steps, each a timestamp and a delta. *)
Record Entry := { total_delta : Float.t F; steps : list (string * Float.t F) }.

(** [log_micro_update(model, delta)] on the content of the metrics file;
    [now] is [datetime.utcnow().isoformat()]. *)
Definition log_micro_update (model : string) (delta : Float.t F)
    (now : string) (data : gmap string Entry) : gmap string Entry :=
  let entry :=
    default {| total_delta := Float.zero; steps := [] |} (data !! model) in
  let entry := {| total_delta := Float.add (total_delta entry) delta;
                  steps := steps entry ++ [(now, delta)] |} in
  <[model := entry]> data.

(** The log is consistent when the total of every entry is what adding
    the deltas of its steps to [0.0], one after the other, gives. *)
Definition consistent (data : gmap string Entry) : Prop :=
  forall model e,
    data !! model = Some e ->
    total_delta e = fold_left Float.add (map snd (steps e)) Float.zero.

End WithFloat.

Arguments Entry : clear implicits.

End Metrics.

(** ** trainer.py *)

Module Trainer.

(** One memory, [{"text": ..., "tag": ..., "confidence": ...}].  The keys
    [tag] and [confidence] are read with [get] and may be absent; [text]
    is read by subscript. *)
Record Memory := {
  text : string;
  tag : option string;
  confidence : option Q }.

(** The quote characters. *)
Definition DQ : ascii := ascii_of_nat 34.
Definition SQ : ascii := ascii_of_nat 39.
Definition BACKSLASH : ascii := ascii_of_nat 92.

Definition hex_digit (n : nat) : ascii :=
  nth n (list_ascii_of_string "0123456789abcdef") "0"%char.

(** The escape [\xNN] of a character. *)
Definition hex_escape (n : nat) : string :=
  String BACKSLASH
    (String "x" (String (hex_digit (n / 16)) (String (hex_digit (n mod 16))
       EmptyString))).

(** How [repr] writes one character of a string quoted with [quote]. *)
Definition escape_char (quote c : ascii) : string :=
  let n := nat_of_ascii c in
  if Ascii.eqb c quote || Ascii.eqb c BACKSLASH
  then String BACKSLASH (String c EmptyString)
  else if (n =? 9)%nat then String BACKSLASH "t"
  else if (n =? 10)%nat then String BACKSLASH "n"
  else if (n =? 13)%nat then String BACKSLASH "r"
  else if ((n <? 32) || (n =? 127))%nat then hex_escape n
  else if (n <? 127)%nat then String c EmptyString
  else if ((n <=? 160) || (n =? 173))%nat then hex_escape n
  else String c EmptyString.

Fixpoint escape (quote : ascii) (s : string) : string :=
  match s with
  | EmptyString => EmptyString
  | String c s' => escape_char quote c +:+ escape quote s'
  end.

Fixpoint contains (c : ascii) (s : string) : bool :=
  match s with
  | EmptyString => false
  | String c' s' => Ascii.eqb c' c || contains c s'
  end.

(** [repr(s)] of a string, the [!r] conversion of an f-string: double
    quotes are used when the text has a single quote and no double
    quote. *)
Definition repr (s : string) : string :=
  let quote := if contains SQ s && negb (contains DQ s) then DQ else SQ in
  String quote (escape quote s +:+ String quote EmptyString).

(** One record of the dataset, without its final line feed. *)
Definition record_of (m : Memory) : string :=
  "{" +:+ String DQ ("prompt" +:+ String DQ (": " +:+ repr (text m)
    +:+ ", " +:+ String DQ ("response" +:+ String DQ (": " +:+ repr (text m)
    +:+ "}")))).

(** The file system: the text files written and the directories made. *)
Record FS := { files : gmap string string; dirs : gset string }.

(** The text the loop of [_save_jsonl] writes: one [f.write] per
    memory, each a record and a line feed. *)
Definition dataset_text (memories : list Memory) : string :=
  fold_left
    (fun content m => content +:+ record_of m +:+ String Py.LF EmptyString)
    memories EmptyString.

(** The test of the list comprehension of [schedule_training]. *)
Definition qualifies (m : Memory) : bool :=
  bool_decide (tag m = Some "new") && Py.gtb (default 0 (confidence m)) (8 # 10).

(** [str(Path("data/lora_train.jsonl"))] and the same path
    [.with_suffix(".Modelfile")]. *)
Definition dataset_path : string := "data/lora_train.jsonl".
Definition modelfile_path : string := "data/lora_train.Modelfile".

(** The lines of a text file: each one ends at a line feed. *)
Fixpoint lines_go (cur : list ascii) (s : list ascii) : list string :=
  match s with
  | [] =>
      match cur with
      | [] => []
      | _ :: _ => [string_of_list_ascii (rev cur)]
      end
  | c :: s' =>
      if Ascii.eqb c Py.LF then string_of_list_ascii (rev cur) :: lines_go [] s'
      else lines_go (c :: cur) s'
  end.

(** The records of a dataset file, one per line. *)
Definition jsonl_records (content : string) : list string :=
  lines_go [] (list_ascii_of_string content).

(** What is printed or logged. *)
Inductive Channel := Stdout | Logger.

Section WithFloat.

Context {F : Float.Ops}.

Inductive Msg :=
| ScheduleCalled (target_model : string) (count : nat)
| Evaluating (count : nat)
| NotEnough
| Saving (count : nat) (path : string)
| WritingModelfile (base_model path : string)
| WouldSchedule (dataset_path : string)
| MicroCalled (model_a model_b : string)
| Nudge (loser : string) (delta : Float.t F)
| ThresholdReached.

(** The state the module acts on: the module-level dictionary
    [_micro_state], the file system, the messages emitted and the content
    of the metrics log. *)
Record State := {
  _micro_state : gmap string (Float.t F);
  fs : FS;
  output : list (Channel * Msg);
  metrics : gmap string (Metrics.Entry F) }.

Definition emit (c : Channel) (m : Msg) (st : State) : State :=
  {| _micro_state := _micro_state st;
     fs := fs st;
     output := output st ++ [(c, m)];
     metrics := metrics st |}.

Definition write_file (path content : string) (st : State) : State :=
  {| _micro_state := _micro_state st;
     fs := {| files := <[path := content]> (files (fs st));
              dirs := dirs (fs st) |};
     output := output st;
     metrics := metrics st |}.

Definition mkdir (path : string) (st : State) : State :=
  {| _micro_state := _micro_state st;
     fs := {| files := files (fs st); dirs := {[path]} ∪ dirs (fs st) |};
     output := output st;
     metrics := metrics st |}.

Definition set_credit (model : string) (credit : Float.t F) (st : State)
  : State :=
  {| _micro_state := <[model := credit]> (_micro_state st);
     fs := fs st;
     output := output st;
     metrics := metrics st |}.

(** [_save_jsonl]: the file is opened for writing (and so emptied) and
    one line is written per memory. *)
Definition _save_jsonl (memories : list Memory) (path : string) (st : State)
  : State :=
  let st := emit Stdout (Saving (length memories) path) st in
  write_file path (dataset_text memories) st.

(** [_write_modelfile]. *)
Definition _write_modelfile (base_model dataset_path output_path : string)
    (st : State) : State :=
  let st := emit Stdout (WritingModelfile base_model output_path) st in
  write_file output_path
    (("FROM " +:+ base_model +:+ String Py.LF EmptyString)
     +:+ ("TRAIN " +:+ dataset_path +:+ String Py.LF EmptyString)) st.

(** [schedule_training]: the path of the model file, or [None]. *)
Definition schedule_training (memories : list Memory) (target_model : string)
    (st : State) : option string * State :=
  let st := emit Stdout (ScheduleCalled target_model (length memories)) st in
  let st := emit Logger (Evaluating (length memories)) st in
  let selected := List.filter qualifies memories in
  if (length selected <? 5)%nat then
    let st := emit Stdout NotEnough st in
    let st := emit Logger NotEnough st in
    (None, st)
  else
    let st := mkdir "data" st in
    let st := _save_jsonl selected dataset_path st in
    let st := _write_modelfile target_model dataset_path modelfile_path st in
    let st := emit Stdout (WouldSchedule dataset_path) st in
    let st := emit Logger (WouldSchedule dataset_path) st in
    (Some modelfile_path, st).

Definition log_metrics (model : string) (delta : Float.t F) (now : string)
    (st : State) : State :=
  {| _micro_state := _micro_state st;
     fs := fs st;
     output := output st;
     metrics := Metrics.log_micro_update model delta now (metrics st) |}.

(** [micro_finetune_step]; [now] is the clock reading used by the
    metrics log.  The delta is [abs(diff) / 1000.0], the credit is read
    with [_micro_state.get(loser, 0.0)] and tested with [> 1.0]. *)
Definition micro_finetune_step (debate_json : Debate.DebateOutcome)
    (validated : list Memory) (model_a model_b : string) (now : string)
    (st : State) : State :=
  let st := emit Stdout (MicroCalled model_a model_b) st in
  let diff :=
    (Z.of_nat (String.length (Debate.resp_a debate_json))
     - Z.of_nat (String.length (Debate.resp_b debate_json)))%Z in
  if (diff =? 0)%Z then st
  else
    let loser := if (diff <? 0)%Z then model_a else model_b in
    let delta := Float.div (Float.of_int (Z.abs diff)) Float.thousand in
    let st :=
      set_credit loser
        (Float.add (default Float.zero (_micro_state st !! loser)) delta) st in
    let st := emit Stdout (Nudge loser delta) st in
    let st := log_metrics loser delta now st in
    let st := emit Logger (Nudge loser delta) st in
    if Float.gtb (default Float.zero (_micro_state st !! loser)) Float.one
       && negb (bool_decide (validated = []))
    then
      let st := emit Stdout ThresholdReached st in
      let st := emit Logger ThresholdReached st in
      let '(_, st) := schedule_training validated loser st in
      set_credit loser Float.zero st
    else st.

Definition initial : State :=
  {| _micro_state := ∅;
     fs := {| files := ∅; dirs := ∅ |};
     output := [];
     metrics := ∅ |}.

(** One call of [micro_finetune_step] as the driver makes it: the debate
    result, the validated memories and the clock reading of a cycle. *)
Record Cycle := {
  c_debate : Debate.DebateOutcome;
  c_validated : list Memory;
  c_now : string }.

(** The calls of a sequence of cycles, for models [model_a] and
    [model_b]. *)
Definition micro_run (model_a model_b : string) (cycles : list Cycle)
    (st : State) : State :=
  fold_left
    (fun st c =>
       micro_finetune_step (c_debate c) (c_validated c) model_a model_b
         (c_now c) st)
    cycles st.

(** The total delta the metrics log holds for a model, [0.0] when it has
    no entry. *)
Definition logged_total (st : State) (model : string) : Float.t F :=
  default Float.zero (Metrics.total_delta <$> metrics st !! model).

(** The accumulated credit of a model, [0.0] when it has none yet. *)
Definition credit (st : State) (model : string) : Float.t F :=
  default Float.zero (_micro_state st !! model).

(** Every credit is non-negative and at most the total the metrics log
    holds for the model. *)
Definition credits_bounded (st : State) : Prop :=
  forall model,
    Float.leb Float.zero (credit st model) = true
    /\ Float.leb (credit st model) (logged_total st model) = true.

End WithFloat.

Arguments Msg : clear implicits.
Arguments State : clear implicits.
Arguments initial : clear implicits.

(** A memory tagged "new" with the given confidence. *)
Definition new_memory (t : string) (c : Q) : Memory :=
  {| text := t; tag := Some "new"; confidence := Some c |}.

(** Seven memories, five of which qualify: one is tagged "known" and one
    has confidence exactly 0.8. *)
Definition seven_memories : list Memory :=
  [ new_memory "m1" (9 # 10);
    new_memory "m2" (85 # 100);
    {| text := "old"; tag := Some "known"; confidence := Some 1 |};
    new_memory "it's" (9 # 10);
    new_memory "edge" (8 # 10);
    new_memory "m4" 1;
    new_memory "m5" (81 # 100) ].

(** A debate outcome with the two given answers. *)
Definition outcome_with_answers (a b : string) : Debate.DebateOutcome :=
  {| Debate.input := "q";
     Debate.mood_a := "critical";
     Debate.resp_a := a;
     Debate.mood_b := "creative";
     Debate.resp_b := b;
     Debate.winner := "B";
     Debate.reasoning := "longer answer preferred" |}.

End Trainer.

(** ** llama_api.py *)

Module LlamaApi.
Import Py.

(** [" ".join(parts)]. *)
Fixpoint join_space (parts : list string) : string :=
  match parts with
  | [] => EmptyString
  | p :: rest =>
      match rest with
      | [] => p
      | _ :: _ => p +:+ " " +:+ join_space rest
      end
  end.

Section Chat.

(** [str.upper], a table of the Unicode database. *)
Variable str_upper : string -> string.

(** [chat(model, messages, stream, mood_prompt)], the offline stub; the
    flag [stream] is not read.  The answer is the dictionary
    [{"choices": [{"message": {"content": content}}]}]. *)
Definition chat (model : string) (messages : list Debate.message)
    (mood_prompt : string) : result Debate.response :=
  let messages :=
    if negb (String.eqb mood_prompt EmptyString)
    then {| Debate.role := "system"; Debate.content := mood_prompt |} :: messages
    else messages in
  let user_text :=
    join_space
      (map Debate.content
         (List.filter (fun m => negb (String.eqb (Debate.role m) "system"))
            messages)) in
  let content := strip (str_upper model +:+ ">>> " +:+ user_text) in
  ret {| Debate.choices := Some [content];
         Debate.repr :=
           "{'choices': [{'message': {'content': "
           +:+ Trainer.repr content +:+ "}}]}" |}.

(** [lambda **kw: llama_chat(model=name, **kw)], the agent [run_cycle]
    hands to [debate_once]. *)
Definition agent (name : string) : Debate.LLMFunc :=
  fun _ messages mood_prompt => chat name messages mood_prompt.

End Chat.

End LlamaApi.

(** ** runtest.py *)

Module RunTest.

(** The dictionary [metrics] that [run_cycle] builds from the debate
    result.  [debate_once] never sets the key [guardian_verdict], so
    [result.get("guardian_verdict")] is [None]. *)
Definition cycle_metrics (result : Debate.DebateOutcome) : Drift.Metrics :=
  let guardian_verdict : option string := None in
  {| Drift.agreement_rate :=
       Some (if String.eqb (Debate.winner result) "A"
                || String.eqb (Debate.winner result) "B"
             then 1 else 0);
     Drift.guardian_override_rate :=
       Some (if bool_decide (guardian_verdict = Some "override")
             then 1 else 0);
     Drift.avg_response_length_delta :=
       Some (inject_Z
               (Z.abs (Z.of_nat (String.length (Debate.resp_a result))
                       - Z.of_nat (String.length (Debate.resp_b result))))) |}.

(** An entry of [mem_out["validated"]] as [schedule_training] and
    [micro_finetune_step] read it. *)
Definition to_memory (v : MemoryLoop.ValidatedItem) : Trainer.Memory :=
  {| Trainer.text := MemoryLoop.v_text v;
     Trainer.tag := Some (MemoryLoop.v_tag v);
     Trainer.confidence := Some (MemoryLoop.v_confidence v) |}.

(** The end of [run_cycle]: the metrics of the cycle enter the window,
    and training is scheduled for model A when the summary is flagged. *)
Definition drift_step (settings : Config.Settings)
    (result : Debate.DebateOutcome) (validated : list MemoryLoop.ValidatedItem)
    (drift_window : Drift.DriftWindow) {F : Float.Ops} (st : Trainer.State F)
  : Drift.DriftWindow * Trainer.State F :=
  let metrics := cycle_metrics result in
  let drift_window := Drift.update drift_window metrics in
  let summary := Drift.compute_summary drift_window in
  if Drift.check_drift summary then
    (drift_window,
     snd (Trainer.schedule_training (map to_memory validated)
            (Config.model_a_name settings) st))
  else (drift_window, st).

End RunTest.

(** * Properties *)

(** ** Facts about the prelude *)

Module PyFacts.
Import Py.

Lemma ltb_lt (x y : Q) : ltb x y = true <-> x < y.
Proof.
  unfold ltb. rewrite negb_true_iff, <- not_true_iff_false, Qle_bool_iff.
  split; [apply Qnot_le_lt | apply Qlt_not_le].
Qed.

Lemma ltb_ge (x y : Q) : ltb x y = false <-> y <= x.
Proof.
  unfold ltb. rewrite negb_false_iff. apply Qle_bool_iff.
Qed.

Lemma gtb_gt (x y : Q) : gtb x y = true <-> y < x.
Proof. apply ltb_lt. Qed.

Lemma gtb_le (x y : Q) : gtb x y = false <-> x <= y.
Proof. apply ltb_ge. Qed.

End PyFacts.

(** ** drift.py *)

Module DriftProps.
Import Drift.

(** *** The window is a bounded FIFO *)

Lemma deque_append_bounded {A} (n : nat) (d : list A) (x : A) :
  (length d <= n)%nat -> (length (deque_append n d x) <= n)%nat.
Proof.
  intros Hd. unfold deque_append.
  destruct (Nat.ltb_spec n (length (d ++ [x]))) as [Hlt | Hge]; [| exact Hge].
  rewrite length_app in Hlt. simpl in Hlt.
  destruct d as [|y d]; simpl in *; [lia|].
  rewrite length_app. simpl. lia.
Qed.

Lemma tail_skipn_snoc {A} (k : nat) (l : list A) (x : A) :
  (k <= length l)%nat -> tail (skipn k l ++ [x]) = skipn (S k) (l ++ [x]).
Proof.
  revert k. induction l as [|y l IH]; intros k Hk; simpl in *.
  - assert (k = 0)%nat as -> by lia. reflexivity.
  - destruct k as [|k]; [reflexivity|].
    simpl. rewrite <- IH by lia. reflexivity.
Qed.

Lemma updates_snoc (w : DriftWindow) (l : list Metrics) (x : Metrics) :
  updates w (l ++ [x]) = update (updates w l) x.
Proof. unfold updates. apply fold_left_app. Qed.

Lemma updates_size (w : DriftWindow) (l : list Metrics) :
  size (updates w l) = size w.
Proof.
  revert w. induction l as [|x l IH]; intros w; [reflexivity|].
  simpl. change (size (updates (update w x) l) = size w). now rewrite IH.
Qed.

(** After any sequence of updates from an empty window the deque holds
    the last [n] samples. *)
Lemma updates_window (n : nat) (l : list Metrics) :
  _window (updates {| size := n; _window := [] |} l)
  = skipn (length l - n) l.
Proof.
  induction l as [|x l IH] using rev_ind; [reflexivity|].
  rewrite updates_snoc. unfold update. cbn [_window].
  rewrite updates_size, IH. cbn [size].
  unfold deque_append.
  rewrite !length_app, length_skipn. cbn [length].
  destruct (Nat.ltb_spec n (length l - (length l - n) + 1)) as [Hlt | Hge].
  - rewrite tail_skipn_snoc by lia. f_equal. lia.
  - replace (length l + 1 - n)%nat with 0%nat by lia.
    replace (length l - n)%nat with 0%nat by lia. reflexivity.
Qed.

(** *** The summary is the field-wise mean *)

Lemma fold_add_sample (l : list Metrics) (a g d : Q) :
  fold_left add_sample l (a, g, d)
  = (fold_left Qplus (map (fun m => default 0 (agreement_rate m)) l) a,
     fold_left Qplus (map (fun m => default 0 (guardian_override_rate m)) l) g,
     fold_left Qplus (map (fun m => default 0 (avg_response_length_delta m)) l) d).
Proof.
  revert a g d. induction l as [|m l IH]; intros a g d; [reflexivity|].
  simpl. apply IH.
Qed.

Lemma compute_summary_mean (w : DriftWindow) :
  _window w <> [] ->
  compute_summary w
  = {| agreement_rate := Some (field_mean agreement_rate (_window w));
       guardian_override_rate :=
         Some (field_mean guardian_override_rate (_window w));
       avg_response_length_delta :=
         Some (field_mean avg_response_length_delta (_window w)) |}.
Proof.
  intros Hne. unfold compute_summary.
  destruct (_window w) as [|m l] eqn:E; [congruence|].
  rewrite fold_add_sample. reflexivity.
Qed.

(** C4. Starting from an empty window of capacity [n], after any sequence
    of [update] calls the window holds at most [n] samples; after [n + k]
    samples it holds exactly the last [n] of them, oldest first (the [k]
    oldest were evicted), and, for a positive capacity, [compute_summary]
    is the arithmetic mean of each of the three fields over these [n]
    samples. *)
Theorem drift_window_bounded_recent (n : nat) :
  (forall samples : list Metrics,
     (length (_window (updates {| size := n; _window := [] |} samples)) <= n)%nat)
  /\
  (forall (k : nat) (samples : list Metrics),
     length samples = (n + k)%nat ->
     let w := updates {| size := n; _window := [] |} samples in
     let recent := skipn k samples in
     _window w = recent /\
     length recent = n /\
     ((0 < n)%nat ->
      compute_summary w
      = {| agreement_rate := Some (field_mean agreement_rate recent);
           guardian_override_rate :=
             Some (field_mean guardian_override_rate recent);
           avg_response_length_delta :=
             Some (field_mean avg_response_length_delta recent) |})).
Proof.
  split.
  - intros samples. rewrite updates_window, length_skipn. lia.
  - intros k samples Hlen w recent.
    assert (Hw : _window w = recent).
    { unfold w, recent. rewrite updates_window. f_equal. lia. }
    assert (Hr : length recent = n).
    { unfold recent. rewrite length_skipn. lia. }
    split; [exact Hw|]. split; [exact Hr|].
    intros Hn. rewrite <- Hw. apply compute_summary_mean.
    rewrite Hw. intros E. rewrite E in Hr. simpl in Hr. lia.
Qed.

(** Capacity 2, three samples: the first one is evicted and the summary
    averages the last two. *)
Lemma drift_window_bounded_recent_witness :
  let samples := [sample 1 0 10; sample 0 1 30; sample 1 1 50] in
  let w := updates {| size := 2; _window := [] |} samples in
  _window w = [sample 0 1 30; sample 1 1 50] /\
  compute_summary w
  = {| agreement_rate :=
         Some (field_mean agreement_rate [sample 0 1 30; sample 1 1 50]);
       guardian_override_rate :=
         Some (field_mean guardian_override_rate [sample 0 1 30; sample 1 1 50]);
       avg_response_length_delta :=
         Some (field_mean avg_response_length_delta
                 [sample 0 1 30; sample 1 1 50]) |}.
Proof.
  intros samples w.
  destruct (proj2 (drift_window_bounded_recent 2) 1%nat samples eq_refl)
    as (Hw & _ & Hs).
  split; [exact Hw | apply Hs; lia].
Defined.

Example summary_of_three :
  compute_summary
    (updates {| size := 2; _window := [] |}
       [sample 1 0 10; sample 0 1 30; sample 1 1 50])
  = {| agreement_rate := Some ((0 + 0 + 1) / 2);
       guardian_override_rate := Some ((0 + 1 + 1) / 2);
       avg_response_length_delta := Some ((0 + 30 + 50) / 2) |}.
Proof. reflexivity. Qed.

(** *** Drift thresholds *)

(** C3. [check_drift] answers [true] exactly when one of the three
    thresholds is crossed: agreement rate below 0.4, guardian override
    rate above 0.5, or average response length delta above 100 (an absent
    key reads as 1, 0 and 0).  So a summary with agreement rate below 0.4
    is flagged whatever the other two fields, and a summary with all three
    fields within bounds is not. *)
Theorem check_drift_thresholds (m : Metrics) :
  let a := default 1 (agreement_rate m) in
  let g := default 0 (guardian_override_rate m) in
  let d := default 0 (avg_response_length_delta m) in
  (check_drift m = true <-> a < 4 # 10 \/ 5 # 10 < g \/ 100 < d) /\
  (a < 4 # 10 -> check_drift m = true) /\
  (4 # 10 <= a -> g <= 5 # 10 -> d <= 100 -> check_drift m = false).
Proof.
  intros a g d.
  assert (Hiff : check_drift m = true <-> a < 4 # 10 \/ 5 # 10 < g \/ 100 < d).
  { unfold check_drift. fold a g d.
    destruct (Py.ltb a (4 # 10)) eqn:Ea.
    { apply PyFacts.ltb_lt in Ea.
      destruct (Py.gtb g (5 # 10)), (Py.gtb d 100); tauto. }
    apply PyFacts.ltb_ge in Ea.
    destruct (Py.gtb g (5 # 10)) eqn:Eg.
    { apply PyFacts.gtb_gt in Eg. destruct (Py.gtb d 100); tauto. }
    apply PyFacts.gtb_le in Eg.
    destruct (Py.gtb d 100) eqn:Ed.
    { apply PyFacts.gtb_gt in Ed. tauto. }
    apply PyFacts.gtb_le in Ed.
    split; [discriminate|].
    intros [H | [H | H]]; exfalso.
    - exact (Qlt_not_le _ _ H Ea).
    - exact (Qlt_not_le _ _ H Eg).
    - exact (Qlt_not_le _ _ H Ed). }
  split; [exact Hiff|]. split.
  - intros Ha. apply Hiff. now left.
  - intros Ha Hg Hd. apply not_true_is_false.
    intros Ht. apply Hiff in Ht. destruct Ht as [H | [H | H]].
    + exact (Qlt_not_le _ _ H Ha).
    + exact (Qlt_not_le _ _ H Hg).
    + exact (Qlt_not_le _ _ H Hd).
Qed.

(** Agreement 0.3 is flagged although the other fields are in range; the
    boundary summary (0.4, 0.5, 100) is not flagged. *)
Lemma check_drift_thresholds_witness :
  check_drift (sample (3 # 10) (2 # 10) 50) = true /\
  check_drift (sample (4 # 10) (5 # 10) 100) = false.
Proof.
  split.
  - apply (proj1 (proj2 (check_drift_thresholds (sample (3 # 10) (2 # 10) 50)))).
    reflexivity.
  - apply (proj2 (proj2 (check_drift_thresholds (sample (4 # 10) (5 # 10) 100))));
      discriminate.
Defined.

(** C10. A window that has never been updated summarises to zeros, and
    that summary is flagged as drift: its agreement rate 0 is below 0.4. *)
Theorem empty_window_flags_drift (n : nat) :
  let w := {| size := n; _window := [] |} in
  DriftWindow_init (Z.of_nat n) = Some w /\
  compute_summary w = sample 0 0 0 /\
  default 1 (agreement_rate (compute_summary w)) < 4 # 10 /\
  check_drift (compute_summary w) = true.
Proof.
  intros w. split; [|split; [|split]]; try reflexivity.
  unfold DriftWindow_init.
  destruct (Z.ltb_spec (Z.of_nat n) 0) as [H | H]; [lia|].
  now rewrite Nat2Z.id.
Qed.

End DriftProps.

(** ** Floats *)

Module FloatFacts.

(** Exact arithmetic satisfies the laws of the order and of the sum. *)
Lemma exact_laws : Float.Laws Float.exact.
Proof.
  split.
  - reflexivity.
  - intros x y z Hxy Hyz. apply Qle_bool_iff.
    apply Qle_bool_iff in Hxy. apply Qle_bool_iff in Hyz.
    exact (Qle_trans _ _ _ Hxy Hyz).
  - intros x d _ Hd. apply Qle_bool_iff. apply Qle_bool_iff in Hd.
    change (x <= x + d). rewrite <- (Qplus_0_r x) at 1.
    apply Qplus_le_r. exact Hd.
  - intros x y d _ Hxy _. apply Qle_bool_iff. apply Qle_bool_iff in Hxy.
    change (x + d <= y + d). apply Qplus_le_l. exact Hxy.
  - intros n Hn. apply Qle_bool_iff.
    change (0 <= inject_Z n / inject_Z 1000).
    apply Qle_shift_div_l; [reflexivity|].
    rewrite Qmult_0_l. unfold Qle, inject_Z. cbn. lia.
Qed.

(** The double nearest to one is 2^52 * 2^-52, and the one after it is
    (2^52 + 1) * 2^-52. *)
Example binary64_one :
  @Float.one Float.binary64
  = SpecFloat.S754_finite false 4503599627370496 (-52).
Proof. vm_compute. reflexivity. Qed.

(** In double precision, adding 0.2, 0.4, 0.3 and 0.1 to 0.0 in this
    order gives the double after one, which is above 1.0; the exact sum
    is one, which is not. *)
Example binary64_sum_exceeds_one :
  let total (F : Float.Ops) :=
    fold_left Float.add
      (map (fun n => Float.div (Float.of_int n) (@Float.thousand F))
           [200; 400; 300; 100]%Z)
      Float.zero in
  total Float.binary64 = SpecFloat.S754_finite false 4503599627370497 (-52)
  /\ Float.gtb (total Float.binary64) Float.one = true
  /\ Float.gtb (total Float.exact) Float.one = false.
Proof. vm_compute. repeat split; reflexivity. Qed.

(** A sum can leave a float where it is: at 2^53 the doubles are 2
    apart, and adding 0.2 gives 2^53 again.  So a sum of non-negative
    floats is never below its first term, but need not be above it. *)
Example binary64_absorbs_small_increment :
  let big := @Float.of_int Float.binary64 (2 ^ 53) in
  let d := Float.div (Float.of_int 200) (@Float.thousand Float.binary64) in
  Float.add big d = big
  /\ Float.leb big (Float.add big d) = true
  /\ Float.ltb big (Float.add big d) = false.
Proof. vm_compute. repeat split; reflexivity. Qed.

(** The laws of the sum, checked in double precision on a few doubles:
    0.0, 0.001, 0.2, 0.3, 1.0, 1000.0, 2^53 and 2^1000 / 1000.0. *)
Example binary64_laws_on_samples :
  let samples :=
    map (fun n => Float.div (Float.of_int n) (@Float.thousand Float.binary64))
      [0; 1; 200; 300; 1000; 1000000; 2 ^ 53 * 1000; 2 ^ 1000]%Z in
  forallb
    (fun x =>
       forallb
         (fun d =>
            Float.leb Float.zero x && Float.leb Float.zero d
            && Float.leb x (Float.add x d)
            && forallb
                 (fun y =>
                    implb (Float.leb x y)
                      (Float.leb (Float.add x d) (Float.add y d)))
                 samples)
         samples)
    samples
  = true.
Proof. vm_compute. reflexivity. Qed.

End FloatFacts.

(** ** debate.py *)

Module DebateProps.
Import Py Debate.

(** A choice between two values returns one of them. *)
Lemma choice_two {A} (rng : Rng.Random) (x y : A) :
  fst (Rng.choice rng x [y]) = x \/ fst (Rng.choice rng x [y]) = y.
Proof.
  unfold Rng.choice, Rng._randbelow. cbn [length fst].
  assert (Hlt : (Rng.draws rng (Rng.pos rng) mod 2 < 2)%nat)
    by (apply Nat.mod_upper_bound; lia).
  remember (Rng.draws rng (Rng.pos rng) mod 2)%nat as i eqn:Ei. clear Ei.
  destruct i as [|[|i]]; [left | right | lia]; reflexivity.
Qed.

(** When both agent calls return and both answers carry a text, the
    debate produces an outcome, computed from the two texts and the
    generator left by the two mood draws. *)
Lemma debate_once_returns user_input rng llama_a llama_b pick_mood first
    ma rng1 mb rng2 ra rb ta tb :
  pick_mood rng = (ma, rng1) ->
  pick_mood rng1 = (mb, rng2) ->
  llama_a 0%nat [user_prompt user_input] (mood_prompt ma) = inr ra ->
  llama_b 0%nat [user_prompt user_input] (mood_prompt mb) = inr rb ->
  extract_text ra = inr ta ->
  extract_text rb = inr tb ->
  debate_once user_input rng llama_a llama_b pick_mood first
  = let diff := Z.abs (Z.of_nat (String.length ta) - Z.of_nat (String.length tb)) in
    let '(w, r, rng') :=
      if (diff <? 10)%Z then
        let '(w, rng') := Rng.choice rng2 "A" ["B"] in
        (w, "similar length; random tie break", rng')
      else (if (String.length tb <? String.length ta)%nat then "A" else "B",
            "longer answer preferred", rng2) in
    (inr {| input := user_input; mood_a := ma; resp_a := ta;
            mood_b := mb; resp_b := tb; winner := w; reasoning := r |}, rng').
Proof.
  intros Hma Hmb Ha Hb Hta Htb. unfold debate_once.
  rewrite Hma, Hmb. cbv zeta.
  replace (gather first _ _) with (@inr exn _ (ra, rb))
    by (unfold gather; rewrite Ha, Hb; now destruct first).
  rewrite Hta, Htb.
  destruct (_ <? 10)%Z; [destruct (Rng.choice rng2 "A" ["B"])|]; reflexivity.
Qed.

(** C1. Whenever the two agents answer with texts [ta] and [tb], the
    debate yields an outcome whose winner is decided by the absolute
    difference of the two text lengths: below 10 the winner is the value
    [rng.choice(["A", "B"])] draws from the supplied generator (hence the
    same on every run with the same seed) and the reasoning is the
    tie-break note; from 10 on the longer text wins and the reasoning is
    the length-preference note.  With lengths 50 and 45 the winner is the
    generator's draw; with lengths 50 and 70 it is "B" for every
    generator. *)
Theorem debate_winner_policy user_input rng llama_a llama_b pick_mood first
    ma rng1 mb rng2 ra rb ta tb :
  pick_mood rng = (ma, rng1) ->
  pick_mood rng1 = (mb, rng2) ->
  llama_a 0%nat [user_prompt user_input] (mood_prompt ma) = inr ra ->
  llama_b 0%nat [user_prompt user_input] (mood_prompt mb) = inr rb ->
  extract_text ra = inr ta ->
  extract_text rb = inr tb ->
  let la := String.length ta in
  let lb := String.length tb in
  let diff := Z.abs (Z.of_nat la - Z.of_nat lb) in
  exists out rng',
    debate_once user_input rng llama_a llama_b pick_mood first = (inr out, rng')
    /\ resp_a out = ta /\ resp_b out = tb
    /\ ((diff < 10)%Z ->
        (winner out, rng') = Rng.choice rng2 "A" ["B"]
        /\ (winner out = "A" \/ winner out = "B")
        /\ reasoning out = "similar length; random tie break")
    /\ ((10 <= diff)%Z ->
        ((winner out = "A" /\ (lb < la)%nat) \/ (winner out = "B" /\ (la < lb)%nat))
        /\ rng' = rng2
        /\ reasoning out = "longer answer preferred")
    /\ (la = 50%nat -> lb = 45%nat ->
        winner out = fst (Rng.choice rng2 "A" ["B"]))
    /\ (la = 50%nat -> lb = 70%nat -> winner out = "B").
Proof.
  intros Hma Hmb Ha Hb Hta Htb la lb diff.
  pose proof (debate_once_returns user_input rng llama_a llama_b pick_mood
                first ma rng1 mb rng2 ra rb ta tb Hma Hmb Ha Hb Hta Htb) as E.
  cbv zeta in E. fold la lb in E. fold diff in E.
  destruct (Z.ltb_spec diff 10) as [Hlt | Hge].
  - destruct (Rng.choice rng2 "A" ["B"]) as [w rng'] eqn:Ec.
    eexists _, _. split; [exact E|]. cbn [resp_a resp_b winner reasoning].
    split; [reflexivity|]. split; [reflexivity|].
    assert (Hw : w = "A" \/ w = "B").
    { pose proof (choice_two rng2 "A" "B") as H2. now rewrite Ec in H2. }
    split; [intros _; now split|].
    split; [intros; lia|].
    split; [reflexivity|].
    intros Hla Hlb. unfold diff in Hlt. lia.
  - eexists _, _. split; [exact E|]. cbn [resp_a resp_b winner reasoning].
    split; [reflexivity|]. split; [reflexivity|].
    split; [intros; lia|].
    assert (Hw : ((if (lb <? la)%nat then "A" else "B") = "A" /\ (lb < la)%nat)
                 \/ ((if (lb <? la)%nat then "A" else "B") = "B" /\ (la < lb)%nat)).
    { unfold diff in Hge.
      destruct (Nat.ltb_spec lb la); [left | right]; split;
        try reflexivity; lia. }
    split; [intros _; now split|].
    split; [intros Hla Hlb; unfold diff in Hge; lia|].
    intros Hla Hlb.
    destruct (Nat.ltb_spec lb la); [lia | reflexivity].
Qed.

(** Lengths 50 and 45 under a generator whose draws are all 1: the
    winner is the generator's choice, here "B".  Lengths 50 and 70 under
    a generator whose draws are all 0: the winner is "B". *)
Lemma debate_winner_policy_witness :
  (exists out rng',
     debate_once "q" (constant_rng 1)
       (answering (text_of_length 50)) (answering (text_of_length 45))
       Mood.pick_mood AFirst = (inr out, rng')
     /\ winner out = "B"
     /\ reasoning out = "similar length; random tie break")
  /\
  (exists out rng',
     debate_once "q" (constant_rng 0)
       (answering (text_of_length 50)) (answering (text_of_length 70))
       Mood.pick_mood BFirst = (inr out, rng')
     /\ winner out = "B"
     /\ reasoning out = "longer answer preferred").
Proof.
  split.
  - destruct (debate_winner_policy "q" (constant_rng 1)
                (answering (text_of_length 50)) (answering (text_of_length 45))
                Mood.pick_mood AFirst _ _ _ _ _ _ _ _
                eq_refl eq_refl eq_refl eq_refl eq_refl eq_refl)
      as (out & rng' & E & _ & _ & Hclose & _ & H5045 & _).
    exists out, rng'. split; [exact E|].
    split; [exact (H5045 eq_refl eq_refl)|].
    apply Hclose. vm_compute. reflexivity.
  - destruct (debate_winner_policy "q" (constant_rng 0)
                (answering (text_of_length 50)) (answering (text_of_length 70))
                Mood.pick_mood BFirst _ _ _ _ _ _ _ _
                eq_refl eq_refl eq_refl eq_refl eq_refl eq_refl)
      as (out & rng' & E & _ & _ & _ & Hfar & _ & H5070).
    exists out, rng'. split; [exact E|].
    split; [exact (H5070 eq_refl eq_refl)|].
    apply Hfar. vm_compute. discriminate.
Defined.

(** Both winners are possible in a tie break: the draw decides. *)
Example tie_break_depends_on_draw :
  fst (Rng.choice (constant_rng 0) "A" ["B"]) = "A" /\
  fst (Rng.choice (constant_rng 1) "A" ["B"]) = "B".
Proof. split; reflexivity. Qed.

Example debate_50_45 :
  option_map winner
    (match fst (debate_once "q" (constant_rng 2)
                  (answering (text_of_length 50)) (answering (text_of_length 45))
                  Mood.pick_mood AFirst) with
     | inr out => Some out | inl _ => None end)
  = Some "A".
Proof. reflexivity. Qed.

(** *** Failure of an agent call *)

Lemma gather_inr {A B} (first : completion) (ra : result A) (rb : result B) p :
  gather first ra rb = inr p <-> ra = inr (fst p) /\ rb = inr (snd p).
Proof.
  destruct p as [a b]. unfold gather, bind, ret.
  destruct first, ra, rb; simpl; split;
    try discriminate; try (intros [? ?]; discriminate);
    try (intros [= -> ->]; now split);
    intros [[= ->] [= ->]]; reflexivity.
Qed.

Lemma gather_inl {A B} (first : completion) (ra : result A) (rb : result B) e :
  gather first ra rb = inl e -> ra = inl e \/ rb = inl e.
Proof.
  unfold gather, bind, ret.
  destruct first, ra, rb; simpl; intros [= <-]; auto.
Qed.

(** A run of [debate_once] in terms of the join of the two first
    invocations: later invocations of the agents are never consulted. *)
Lemma debate_once_gather user_input rng (llama_a llama_b : LLMFunc) pick_mood
    first ma rng1 mb rng2 :
  pick_mood rng = (ma, rng1) ->
  pick_mood rng1 = (mb, rng2) ->
  debate_once user_input rng llama_a llama_b pick_mood first
  = match gather first
            (llama_a 0%nat [user_prompt user_input] (mood_prompt ma))
            (llama_b 0%nat [user_prompt user_input] (mood_prompt mb)) with
    | inl e => (inl e, rng2)
    | inr (ra, rb) =>
        debate_once user_input rng (fun _ _ _ => inr ra) (fun _ _ _ => inr rb)
          pick_mood first
    end.
Proof.
  intros Hma Hmb. unfold debate_once. rewrite Hma, Hmb. cbv zeta.
  destruct (gather first _ _) as [e | [ra rb]] eqn:G; [reflexivity|].
  replace (gather first (inr ra) (inr rb)) with (@inr exn _ (ra, rb))
    by now destruct first.
  reflexivity.
Qed.

End DebateProps.

(** ** difflib *)

Module DifflibProps.
Import Difflib.

Example ratio_identical : Qeq_bool (ratio "abcde" "abcde") 1 = true.
Proof. vm_compute. reflexivity. Qed.

Example ratio_disjoint : Qeq_bool (ratio "abc" "xyz") 0 = true.
Proof. vm_compute. reflexivity. Qed.

Example ratio_abcd_bcde : Qeq_bool (ratio "abcd" "bcde") (3 # 4) = true.
Proof. vm_compute. reflexivity. Qed.

Example ratio_four_of_five : Qeq_bool (ratio "abcde" "abcdX") (8 # 10) = true.
Proof. vm_compute. reflexivity. Qed.

Example blocks_example :
  matching_loop 20 (list_ascii_of_string "qabxcd")
    (list_ascii_of_string "abycdf") [(0, 6, 0, 6)%nat] []
  = [(1, 0, 2); (4, 3, 2)]%nat.
Proof. vm_compute. reflexivity. Qed.

End DifflibProps.

(** ** memoryloop.py *)

Module MemoryLoopProps.
Import MemoryLoop.

(** *** Tagging *)

Lemma fold_max_gt (t : Q) (xs : list Q) (m : Q) :
  t < fold_left (fun m y => if Py.gtb y m then y else m) xs m
  <-> t < m \/ exists x, x ∈ xs /\ t < x.
Proof.
  revert m. induction xs as [|y xs IH]; intros m; simpl.
  - split; [auto|]. intros [H | (x & Hx & _)]; [exact H|].
    now apply elem_of_nil in Hx.
  - rewrite IH. split.
    + intros [H | (x & Hx & Hlt)].
      * destruct (Py.gtb y m) eqn:E; [|now left].
        right. exists y. split; [apply list_elem_of_here | exact H].
      * right. exists x. split; [now apply list_elem_of_further | exact Hlt].
    + intros [H | (x & Hx & Hlt)].
      * left. destruct (Py.gtb y m) eqn:E; [|exact H].
        apply PyFacts.gtb_gt in E. now apply Qlt_trans with m.
      * apply elem_of_cons in Hx. destruct Hx as [-> | Hx].
        -- left. destruct (Py.gtb y m) eqn:E; [exact Hlt|].
           apply PyFacts.gtb_le in E. now apply Qlt_le_trans with y.
        -- right. now exists x.
Qed.

(** The best similarity exceeds a non-negative bound exactly when the
    chunk is that similar to some seen chunk. *)
Lemma best_similarity_gt (ratio : string -> string -> Q) (seen : gset string)
    (c : string) (t : Q) :
  0 <= t ->
  (t < best_similarity ratio seen c <-> exists s, s ∈ seen /\ t < ratio c s).
Proof.
  intros Ht. unfold best_similarity, py_max.
  destruct (elements seen) as [|s0 l] eqn:E.
  - simpl. split.
    + intros H. exfalso. exact (Qlt_not_le _ _ H Ht).
    + intros (s & Hs & _). apply elem_of_elements in Hs.
      rewrite E in Hs. now apply elem_of_nil in Hs.
  - cbn [map]. rewrite fold_max_gt. split.
    + intros [H | (x & Hx & Hlt)].
      * exists s0. split; [|exact H].
        apply elem_of_elements. rewrite E. apply list_elem_of_here.
      * apply list_elem_of_fmap in Hx. destruct Hx as (s & -> & Hs).
        exists s. split; [|exact Hlt].
        apply elem_of_elements. rewrite E. now apply list_elem_of_further.
    + intros (s & Hs & Hlt). apply elem_of_elements in Hs. rewrite E in Hs.
      apply elem_of_cons in Hs. destruct Hs as [-> | Hs]; [now left|].
      right. exists (ratio c s). split; [|exact Hlt].
      apply list_elem_of_fmap. now exists s.
Qed.

Lemma union_singleton_swap (c : string) (X S : gset string) :
  X ∪ ({[c]} ∪ S) = {[c]} ∪ X ∪ S.
Proof.
  rewrite (union_comm_L {[c]} X), <- (union_assoc_L X {[c]} S). reflexivity.
Qed.

(** C8 (amended). Every chunk is tagged "known" exactly when its best
    similarity ratio against the chunks seen before it is strictly
    greater than 0.8, that is when some earlier seen chunk is more than
    0.8 similar, and "new" otherwise (a ratio of exactly 0.8 gives
    "new"); whatever its tag, every chunk is in the seen set
    afterwards. *)
Theorem tag_known_iff_strictly_above (ratio : string -> string -> Q)
    (seen : gset string) (chunks : list string) :
  let results := fst (tag_with_local_model ratio seen chunks) in
  let seen' := snd (tag_with_local_model ratio seen chunks) in
  seen' = list_to_set chunks ∪ seen
  /\ map text results = chunks
  /\ (forall (i : nat) (item : Tagged),
        results !! i = Some item ->
        let before : gset string := list_to_set (take i chunks) ∪ seen in
        let best := best_similarity ratio before (text item) in
        (8 # 10 < best -> tag item = Tag_value KNOWN)
        /\ (best <= 8 # 10 -> tag item = Tag_value NEW)
        /\ (tag item = Tag_value KNOWN
            <-> exists s, s ∈ before /\ 8 # 10 < ratio (text item) s)).
Proof.
  revert seen. induction chunks as [|c chunks IH]; intros seen.
  - cbn. split; [now rewrite union_empty_l_L|]. split; [reflexivity|].
    intros i item H. now rewrite lookup_nil in H.
  - cbn [tag_with_local_model].
    specialize (IH ({[c]} ∪ seen)).
    destruct (tag_with_local_model ratio ({[c]} ∪ seen) chunks)
      as [results seen1] eqn:E.
    cbn [fst snd] in *. destruct IH as (Hseen & Htext & Htags).
    split; [rewrite Hseen; cbn [list_to_set]; apply union_singleton_swap|].
    split; [cbn; now rewrite Htext|].
    intros [|i] item Hitem.
    + injection Hitem as <-. cbn [text tag].
      assert (Hb : (list_to_set (take 0 (c :: chunks)) ∪ seen : gset string)
                   = seen) by apply union_empty_l_L.
      cbv zeta. rewrite Hb. clear Hb.
      pose proof (best_similarity_gt ratio seen c (8 # 10)) as Hbest.
      destruct (Py.gtb (best_similarity ratio seen c) (8 # 10)) eqn:G.
      * apply PyFacts.gtb_gt in G. split; [reflexivity|].
        split; [intros Hle; exfalso; exact (Qlt_not_le _ _ G Hle)|].
        split; [intros _; apply Hbest; [discriminate | exact G]|reflexivity].
      * apply PyFacts.gtb_le in G. split.
        { intros Hlt; exfalso; exact (Qlt_not_le _ _ Hlt G). }
        split; [reflexivity|].
        split; [discriminate|].
        intros Hex. apply Hbest in Hex; [|discriminate].
        exfalso. exact (Qlt_not_le _ _ Hex G).
    + cbn [lookup] in Hitem. specialize (Htags i item Hitem).
      assert (Hb : (list_to_set (take (S i) (c :: chunks)) ∪ seen : gset string)
                   = list_to_set (take i chunks) ∪ ({[c]} ∪ seen))
        by (symmetry; apply union_singleton_swap).
      cbv zeta in Htags. cbv zeta. rewrite Hb. exact Htags.
Qed.

(** Two chunks against an empty history: the first is "new"; the second
    repeats it, so its best similarity is 1 and it is "known". *)
Lemma tag_known_iff_strictly_above_witness :
  let results :=
    fst (tag_with_local_model Difflib.ratio ∅ ["the sky is blue"; "the sky is blue"]) in
  exists first second,
    results = [first; second]
    /\ tag first = Tag_value NEW
    /\ tag second = Tag_value KNOWN.
Proof.
  intros results.
  destruct (tag_known_iff_strictly_above Difflib.ratio ∅
              ["the sky is blue"; "the sky is blue"]) as (_ & _ & Htags).
  exists {| text := "the sky is blue"; tag := "new" |},
         {| text := "the sky is blue"; tag := "known" |}.
  split; [vm_compute; reflexivity|]. split.
  - assert (H0 : results !! 0%nat
                 = Some {| text := "the sky is blue"; tag := "new" |})
      by (vm_compute; reflexivity).
    destruct (Htags _ _ H0) as (_ & Hnew & _). apply Hnew.
    apply Qle_bool_iff. vm_compute. reflexivity.
  - assert (H1 : results !! 1%nat
                 = Some {| text := "the sky is blue"; tag := "known" |})
      by (vm_compute; reflexivity).
    destruct (Htags _ _ H1) as (Hknown & _). apply Hknown.
    apply PyFacts.gtb_gt. vm_compute. reflexivity.
Defined.

(** C8 as stated fails at the threshold: "abcde" against the seen chunk
    "abcdX" has similarity ratio 8/10 (four matching characters out of
    ten), which is at least 0.8, yet the chunk is tagged "new". *)
Lemma tag_at_threshold_is_new :
  8 # 10 <= best_similarity Difflib.ratio {["abcdX"]} "abcde"
  /\ map tag (fst (tag_with_local_model Difflib.ratio {["abcdX"]} ["abcde"]))
     = [Tag_value NEW]
  /\ Tag_value NEW <> Tag_value KNOWN.
Proof.
  split; [|split].
  - apply Qle_bool_iff. vm_compute. reflexivity.
  - vm_compute. reflexivity.
  - discriminate.
Qed.

Example tag_repeated_chunk :
  map tag (fst (tag_with_local_model Difflib.ratio ∅
                  ["the sky is blue"; "the sky is blue"; "grass is green"]))
  = ["new"; "known"; "new"].
Proof. vm_compute. reflexivity. Qed.

(** *** Routing of a chunk by the consensus status and the guardian *)

Section Routing.
Context {World Log : Type}.
Variable debate_candidate : World -> string -> string -> string * Log * World.
Variable guardian_fn : World -> string -> Log -> Verdict * World.

#[local] Abbreviation loop := (filter_loop debate_candidate guardian_fn).
#[local] Abbreviation step := (filter_step debate_candidate guardian_fn).

(** What is already in the three lists is kept in front of what the loop
    adds. *)
Lemma filter_step_prefix idx item v r c w :
  step idx item ((v, r, c), w)
  = let '((v', r', c'), w') := step idx item (([], [], []), w) in
    ((v ++ v', r ++ r', c ++ c'), w').
Proof.
  unfold filter_step.
  destruct (debate_candidate w (pretty idx) (text item)) as [[status log] w1].
  destruct (negb (String.eqb status "ACCEPTED")).
  - now rewrite !app_nil_r.
  - destruct (guardian_fn w1 (text item) log) as [vd w2].
    destruct (bool_decide (verdict vd = Some "reject")); now rewrite !app_nil_r.
Qed.

Lemma filter_loop_prefix tagged idx v r c w :
  loop idx tagged ((v, r, c), w)
  = let '((v', r', c'), w') := loop idx tagged (([], [], []), w) in
    ((v ++ v', r ++ r', c ++ c'), w').
Proof.
  revert idx v r c w. induction tagged as [|item tagged IH]; intros idx v r c w.
  - cbn. now rewrite !app_nil_r.
  - cbn [filter_loop]. rewrite filter_step_prefix.
    destruct (step idx item (([], [], []), w)) as [[[v1 r1] c1] w1].
    rewrite (IH (S idx) (v ++ v1) (r ++ r1) (c ++ c1)).
    rewrite (IH (S idx) v1 r1 c1).
    destruct (loop (S idx) tagged (([], [], []), w1)) as [[[v2 r2] c2] w2].
    now rewrite !app_assoc.
Qed.

Lemma filter_loop_app pre post idx st :
  loop idx (pre ++ post) st = loop (idx + length pre) post (loop idx pre st).
Proof.
  revert idx st. induction pre as [|item pre IH]; intros idx st.
  - cbn. now rewrite Nat.add_0_r.
  - cbn [app filter_loop length]. rewrite IH. f_equal. lia.
Qed.

(** C2. Take any chunk of a debate outcome (the tagged item at position
    [length pre]) whose consensus sub-debate concludes ACCEPTED.  If the
    guardian's verdict on it is "reject", the chunk is entered in
    [rejected] with the guardian's rationale as its reason (the empty
    text when the guardian gives none), at its place between the entries
    of the chunks before and after it, and it adds nothing to
    [validated].  With any other verdict ("unsure" included) it is
    entered in [validated] with its tag and the guardian's confidence (0 when
    the guardian gives none), and adds nothing to [rejected]. *)
Theorem guardian_verdict_routes_chunk (ratio : string -> string -> Q)
    (debate_json : Debate.DebateOutcome) (seen : gset string) (w0 : World)
    (pre : list Tagged) (item : Tagged) (post : list Tagged)
    v1 r1 c1 w1 log w2 vd w3 v3 r3 c3 w4 :
  fst (tag_with_local_model ratio seen (candidates debate_json))
  = pre ++ item :: post ->
  loop 0 pre (([], [], []), w0) = ((v1, r1, c1), w1) ->
  debate_candidate w1 (pretty (length pre)) (text item) = ("ACCEPTED", log, w2) ->
  guardian_fn w2 (text item) log = (vd, w3) ->
  loop (S (length pre)) post (([], [], []), w3) = ((v3, r3, c3), w4) ->
  let out :=
    fst (fst (filter_memory debate_candidate guardian_fn ratio debate_json
                seen w0)) in
  (verdict vd = Some "reject" ->
   rejected out
   = r1 ++ {| r_text := text item;
              r_reason := default EmptyString (rationale vd) |} :: r3
   /\ validated out = v1 ++ v3)
  /\
  (verdict vd <> Some "reject" ->
   validated out
   = v1 ++ {| v_text := text item;
              v_tag := tag item;
              v_confidence := default 0 (confidence vd) |} :: v3
   /\ rejected out = r1 ++ r3).
Proof.
  intros Htag Hpre Hdeb Hguard Hpost out.
  assert (Hloop :
    loop 0 (pre ++ item :: post) (([], [], []), w0)
    = if bool_decide (verdict vd = Some "reject") then
        ((v1 ++ v3,
          r1 ++ {| r_text := text item;
                   r_reason := default EmptyString (rationale vd) |} :: r3,
          c1 ++ c3), w4)
      else
        ((v1 ++ {| v_text := text item; v_tag := tag item;
                   v_confidence := default 0 (confidence vd) |} :: v3,
          r1 ++ r3,
          c1 ++ default 0 (confidence vd) :: c3), w4)).
  { rewrite filter_loop_app, Hpre. cbn [filter_loop Nat.add].
    unfold filter_step at 1. rewrite Hdeb, String.eqb_refl.
    cbn [negb]. rewrite Hguard.
    destruct (bool_decide (verdict vd = Some "reject"));
      rewrite filter_loop_prefix, Hpost, <- !app_assoc; reflexivity. }
  assert (Hout :
    (validated out, rejected out)
    = (fst (fst (fst (loop 0 (pre ++ item :: post) (([], [], []), w0)))),
       snd (fst (fst (loop 0 (pre ++ item :: post) (([], [], []), w0)))))).
  { unfold out, filter_memory.
    destruct (tag_with_local_model ratio seen (candidates debate_json))
      as [tagged seen'].
    cbn [fst] in Htag. subst tagged.
    destruct (loop 0 (pre ++ item :: post) (([], [], []), w0))
      as [[[v r] c] w].
    reflexivity. }
  rewrite Hloop in Hout.
  split; intros Hv.
  - rewrite bool_decide_eq_true_2 in Hout by exact Hv.
    cbn [fst snd] in Hout. now injection Hout as -> ->.
  - rewrite bool_decide_eq_false_2 in Hout by exact Hv.
    cbn [fst snd] in Hout. now injection Hout as -> ->.
Qed.

End Routing.

(** The reasoning "Alpha wins. Beta loses" has two chunks, both accepted
    by the engine; the guardian rejects the first and is unsure about the
    second.  The first is in [rejected] with the guardian's rationale and
    not in [validated]; the second is in [validated] with its tag and the
    guardian's confidence. *)
Lemma guardian_verdict_routes_chunk_witness :
  let out :=
    fst (fst (filter_memory accepting_engine (guardian_rejecting "Alpha wins")
                Difflib.ratio (outcome_with_reasoning "Alpha wins. Beta loses")
                ∅ tt)) in
  rejected out
  = [{| r_text := "Alpha wins"; r_reason := "contradicts the record" |}]
  /\ validated out
     = [{| v_text := "Beta loses"; v_tag := "new"; v_confidence := 9 # 10 |}].
Proof.
  intros out. split.
  - apply (guardian_verdict_routes_chunk accepting_engine
             (guardian_rejecting "Alpha wins") Difflib.ratio
             (outcome_with_reasoning "Alpha wins. Beta loses") ∅ tt
             [] {| text := "Alpha wins"; tag := "new" |}
             [{| text := "Beta loses"; tag := "new" |}]
             [] [] [] tt ["A: ACCEPT"; "B: ACCEPT"] tt
             {| verdict := Some "reject";
                rationale := Some "contradicts the record";
                confidence := Some (95 # 100) |} tt
             [{| v_text := "Beta loses"; v_tag := "new";
                 v_confidence := 9 # 10 |}] [] [9 # 10] tt);
      vm_compute; reflexivity.
  - apply (guardian_verdict_routes_chunk accepting_engine
             (guardian_rejecting "Alpha wins") Difflib.ratio
             (outcome_with_reasoning "Alpha wins. Beta loses") ∅ tt
             [{| text := "Alpha wins"; tag := "new" |}]
             {| text := "Beta loses"; tag := "new" |} []
             [] [{| r_text := "Alpha wins";
                    r_reason := "contradicts the record" |}] [] tt
             ["A: ACCEPT"; "B: ACCEPT"] tt
             {| verdict := Some "unsure"; rationale := None;
                confidence := Some (9 # 10) |} tt
             [] [] [] tt);
      try (vm_compute; reflexivity).
    discriminate.
Defined.

Example split_example :
  split_into_chunks "  One. Two?  Three!Four. "
  = ["One"; "Two"; "Three!Four."].
Proof. vm_compute. reflexivity. Qed.

Example split_leading_separator :
  split_into_chunks ". x" = [EmptyString; "x"].
Proof. vm_compute. reflexivity. Qed.

End MemoryLoopProps.

(** ** validator.py *)

Module ValidatorProps.
Import Py Validator.

Lemma upper_char_colon (c : ascii) : upper_char c = ":"%char -> c = ":"%char.
Proof.
  destruct c as [[] [] [] [] [] [] [] []]; vm_compute; congruence.
Qed.

(** A line whose upper-cased text starts with a prefix containing a colon
    has a colon itself. *)
Lemma prefix_has_colon (p line : string) :
  String.prefix p (upper line) = true ->
  In ":"%char (list_ascii_of_string p) ->
  exists rest, after_colon line = ret rest.
Proof.
  revert line. induction p as [|pc p IH]; intros line Hpre Hin.
  - destruct Hin.
  - destruct line as [|lc line]; [discriminate Hpre|].
    cbn [upper map_string String.prefix] in Hpre.
    destruct (ascii_dec pc (upper_char lc)) as [-> | Hne]; [|discriminate Hpre].
    cbn [after_colon].
    destruct (Ascii.eqb_spec lc ":"%char) as [-> | Hlc]; [now eexists|].
    apply IH; [exact Hpre|].
    destruct Hin as [Hc | Hin]; [|exact Hin].
    exfalso. apply Hlc. now apply upper_char_colon.
Qed.

Section Parsing.
Context {float : Type}.
Variable float_of_string : string -> option float.
Variable zero : float.

#[local] Abbreviation parse_line := (parse_line float_of_string).
#[local] Abbreviation parse_lines := (parse_lines float_of_string).

#[local] Abbreviation no_confidence := (no_confidence float_of_string).

(** One line never raises, and leaves a field it does not set as it
    was. *)
Lemma parse_line_total st line :
  exists st', parse_line st line = ret st'
    /\ (lacks "VERDICT:" line -> fst (fst st') = fst (fst st))
    /\ (lacks "RATIONALE:" line -> snd (fst st') = snd (fst st))
    /\ (no_confidence line -> snd st' = snd st).
Proof.
  destruct st as [[v r] c]. unfold Validator.parse_line, lacks, no_confidence.
  destruct (String.prefix "VERDICT:" (upper line)) eqn:Ev.
  { destruct (prefix_has_colon _ _ Ev) as [rest ->]; [cbn; tauto|].
    eexists. split; [reflexivity|]. cbn.
    repeat split; auto; discriminate. }
  destruct (String.prefix "RATIONALE:" (upper line)) eqn:Er.
  { destruct (prefix_has_colon _ _ Er) as [rest ->]; [cbn; tauto|].
    eexists. split; [reflexivity|]. cbn.
    repeat split; auto; discriminate. }
  destruct (String.prefix "CONFIDENCE:" (upper line)) eqn:Ec.
  { destruct (prefix_has_colon _ _ Ec) as [rest Hrest]; [cbn; tauto|].
    rewrite Hrest. cbn [bind ret].
    destruct (float_of_string (strip rest)) as [f|] eqn:Ef.
    - eexists. split; [reflexivity|]. cbn. repeat split; auto.
      intros H. specialize (H eq_refl rest eq_refl). congruence.
    - eexists. split; [reflexivity|]. cbn. repeat split; auto. }
  eexists. split; [reflexivity|]. repeat split; auto.
Qed.

Lemma parse_lines_total st lines :
  exists st', parse_lines st lines = ret st'
    /\ (Forall (lacks "VERDICT:") lines -> fst (fst st') = fst (fst st))
    /\ (Forall (lacks "RATIONALE:") lines -> snd (fst st') = snd (fst st))
    /\ (Forall no_confidence lines -> snd st' = snd st).
Proof.
  revert st. induction lines as [|line lines IH]; intros st.
  - exists st. repeat split; reflexivity.
  - cbn [Validator.parse_lines].
    destruct (parse_line_total st line) as (st1 & -> & Hv1 & Hr1 & Hc1).
    cbn [bind].
    destruct (IH st1) as (st2 & E2 & Hv2 & Hr2 & Hc2).
    exists st2. split; [exact E2|].
    repeat split; intros H; apply Forall_cons_1 in H; destruct H as [H1 H2].
    + now rewrite Hv2, Hv1.
    + now rewrite Hr2, Hr1.
    + now rewrite Hc2, Hc1.
Qed.

Variable create : nat -> string -> list Debate.message -> result pyval.

Lemma retry_loop_all_fail settings messages remaining attempt delay sleeps :
  (forall k, (k < remaining)%nat ->
     exists e, attempt_once float_of_string zero create settings
                 (attempt + k) messages = inl e) ->
  exists sleeps',
    retry_loop float_of_string zero create settings messages
      remaining attempt delay sleeps = (None, sleeps ++ sleeps')
    /\ length sleeps' = remaining.
Proof.
  revert attempt delay sleeps.
  induction remaining as [|n IH]; intros attempt delay sleeps Hfail.
  - exists []. now rewrite app_nil_r.
  - cbn [retry_loop].
    destruct (Hfail 0%nat ltac:(lia)) as [e He].
    rewrite Nat.add_0_r in He. rewrite He.
    destruct (IH (S attempt) (delay * 2)%nat (sleeps ++ [delay])) as (sl & E & L).
    { intros k Hk. destruct (Hfail (S k) ltac:(lia)) as [e' He'].
      exists e'. rewrite <- He'. f_equal. lia. }
    exists (delay :: sl). rewrite E, <- app_assoc. cbn. now rewrite L.
Qed.


End Parsing.



Example parse_sloppy_answer :
  parse_response toy_float 0 (chat_completion sloppy_answer)
  = ret {| verdict := "reject"; rationale := "too vague"; confidence := 0 |}.
Proof. vm_compute. reflexivity. Qed.

Example parse_empty_answer :
  parse_response toy_float 0 (chat_completion EmptyString)
  = ret (unsure 0 EmptyString).
Proof. vm_compute. reflexivity. Qed.

Example malformed_answer_is_retried :
  validate toy_float 0 (fun _ _ _ => ret (PDict [("choices", PList [])]))
    Config.defaults true environ_with_key "{}" default_key_env
  = (ret (unsure 0 "Validator unreachable after retries."), [2; 4; 8]%nat).
Proof. vm_compute. reflexivity. Qed.

Example second_attempt_succeeds :
  validate toy_float 0
    (fun attempt _ _ =>
       match attempt with
       | O => raise (RuntimeError "timeout")
       | S _ => ret (chat_completion "VERDICT: accept")
       end)
    Config.defaults true environ_with_key "{}" default_key_env
  = (ret {| verdict := "accept"; rationale := EmptyString; confidence := 0 |},
     [2]%nat).
Proof. vm_compute. reflexivity. Qed.

Example splitlines_example :
  splitlines_go []
    (list_ascii_of_string ("a" +:+ String CR (String LF ("b" +:+ String LF EmptyString))))
  = ["a"; "b"].
Proof. vm_compute. reflexivity. Qed.

End ValidatorProps.

(** ** trainer.py *)

Module TrainerProps.
Import Trainer.

(** *** The dataset file *)

(** Unfold [+:+] on a string whose head is known. *)
Ltac step_append :=
  repeat match goal with
    | |- context [String ?x ?a +:+ ?b] =>
        change (String x a +:+ b) with (String x (a +:+ b))
    | |- context [EmptyString +:+ ?b] =>
        change (EmptyString +:+ b) with b
    end.

Lemma contains_app (c : ascii) (a b : string) :
  contains c (a +:+ b) = contains c a || contains c b.
Proof.
  induction a as [|x a IH]; [reflexivity|].
  step_append. cbn [contains]. now rewrite IH, orb_assoc.
Qed.

Lemma escape_char_no_LF (c : ascii) :
  contains Py.LF (escape_char DQ c) = false
  /\ contains Py.LF (escape_char SQ c) = false.
Proof.
  destruct c as [[] [] [] [] [] [] [] []]; vm_compute; split; reflexivity.
Qed.

Lemma escape_no_LF (quote : ascii) (s : string) :
  quote = DQ \/ quote = SQ -> contains Py.LF (escape quote s) = false.
Proof.
  intros Hq. induction s as [|c s IH]; [reflexivity|].
  cbn [escape]. rewrite contains_app, IH, orb_false_r.
  destruct Hq as [-> | ->]; apply escape_char_no_LF.
Qed.

(** [repr] never writes a raw line feed: it is escaped. *)
Lemma repr_no_LF (s : string) : contains Py.LF (repr s) = false.
Proof.
  unfold repr.
  destruct (contains SQ s && negb (contains DQ s)).
  - cbn [contains]. rewrite contains_app, escape_no_LF by now left. reflexivity.
  - cbn [contains]. rewrite contains_app, escape_no_LF by now right. reflexivity.
Qed.

Lemma record_of_no_LF (m : Memory) : contains Py.LF (record_of m) = false.
Proof.
  unfold record_of.
  repeat (step_append; rewrite ?contains_app; cbn [contains]).
  rewrite !repr_no_LF. reflexivity.
Qed.

Lemma list_ascii_of_string_app (a b : string) :
  list_ascii_of_string (a +:+ b)
  = list_ascii_of_string a ++ list_ascii_of_string b.
Proof.
  induction a as [|c a IH]; [reflexivity|].
  step_append. cbn [list_ascii_of_string app]. now rewrite IH.
Qed.

Lemma string_app_assoc (a b c : string) : (a +:+ b) +:+ c = a +:+ (b +:+ c).
Proof.
  induction a as [|x a IH]; [reflexivity|].
  step_append. now rewrite IH.
Qed.

Lemma string_app_empty_r (a : string) : a +:+ EmptyString = a.
Proof.
  induction a as [|x a IH]; [reflexivity|].
  step_append. now rewrite IH.
Qed.

(** A line without line feed, followed by a line feed, is the first
    line. *)
Lemma lines_go_line (body : string) (cur rest : list ascii) :
  contains Py.LF body = false ->
  lines_go cur (list_ascii_of_string body ++ Py.LF :: rest)
  = string_of_list_ascii (rev cur ++ list_ascii_of_string body)
    :: lines_go [] rest.
Proof.
  revert cur. induction body as [|c body IH]; intros cur Hno.
  - cbn. now rewrite app_nil_r.
  - cbn in Hno. apply orb_false_elim in Hno. destruct Hno as [Hc Hno].
    cbn [list_ascii_of_string app lines_go]. rewrite Hc.
    rewrite IH by exact Hno. cbn [rev]. now rewrite <- app_assoc.
Qed.

Lemma dataset_text_fold (memories : list Memory) (acc : string) :
  fold_left
    (fun content m => content +:+ record_of m +:+ String Py.LF EmptyString)
    memories acc
  = acc +:+ dataset_text memories.
Proof.
  unfold dataset_text. revert acc.
  induction memories as [|m memories IH]; intros acc; cbn [fold_left].
  - now rewrite string_app_empty_r.
  - rewrite IH. rewrite (IH (EmptyString +:+ _)).
    step_append. now rewrite !string_app_assoc.
Qed.

(** The dataset holds one record per memory, in order. *)
Lemma jsonl_records_dataset (memories : list Memory) :
  jsonl_records (dataset_text memories) = map record_of memories.
Proof.
  unfold jsonl_records.
  induction memories as [|m memories IH]; [reflexivity|].
  unfold dataset_text. cbn [fold_left]. rewrite dataset_text_fold.
  step_append.
  rewrite !list_ascii_of_string_app. cbn [list_ascii_of_string app].
  rewrite <- app_assoc. cbn [app].
  rewrite lines_go_line by apply record_of_no_LF.
  cbn [rev app map]. rewrite string_of_list_ascii_of_string.
  now rewrite IH.
Qed.

(** *** Scheduling *)

Section WithFloat.

Context {F : Float.Ops}.

Lemma qualifies_iff (m : Memory) :
  qualifies m = true
  <-> tag m = Some "new" /\ 8 # 10 < default 0 (confidence m).
Proof.
  unfold qualifies. rewrite andb_true_iff, bool_decide_eq_true, PyFacts.gtb_gt.
  reflexivity.
Qed.

(** [schedule_training] touches neither the credits nor the metrics
    log. *)
Lemma schedule_training_frame memories target (st : State F) :
  _micro_state (snd (schedule_training memories target st)) = _micro_state st
  /\ metrics (snd (schedule_training memories target st)) = metrics st
  /\ In (Stdout, ScheduleCalled target (length memories))
        (output (snd (schedule_training memories target st))).
Proof.
  unfold schedule_training.
  destruct (length (List.filter qualifies memories) <? 5)%nat;
    cbn; repeat split; try reflexivity;
    rewrite ?in_app_iff; cbn; tauto.
Qed.

(** C5. [schedule_training] selects exactly the memories tagged "new"
    whose confidence is strictly greater than 0.8.  With fewer than 5 of
    them it returns nothing, reports that on both the console and the
    log, and writes no file.  With 5 or more it returns the path of the
    job descriptor, which names the target model and the dataset file,
    and the dataset file holds one record per selected memory; so with
    exactly 5 selected memories the dataset has exactly 5 records. *)
Theorem schedule_training_threshold (memories : list Memory)
    (target_model : string) (st : State F) :
  let selected := List.filter qualifies memories in
  let job := fst (schedule_training memories target_model st) in
  let st' := snd (schedule_training memories target_model st) in
  (forall m, In m selected
             <-> In m memories /\ tag m = Some "new"
                 /\ 8 # 10 < default 0 (confidence m))
  /\ ((length selected < 5)%nat ->
      job = None
      /\ In (Stdout, NotEnough) (output st')
      /\ In (Logger, NotEnough) (output st')
      /\ fs st' = fs st)
  /\ ((5 <= length selected)%nat ->
      job = Some modelfile_path
      /\ files (fs st') !! modelfile_path
         = Some (("FROM " +:+ target_model +:+ String Py.LF EmptyString)
                 +:+ ("TRAIN " +:+ dataset_path +:+ String Py.LF EmptyString))
      /\ exists content,
           files (fs st') !! dataset_path = Some content
           /\ jsonl_records content = map record_of selected)
  /\ (length selected = 5%nat ->
      exists path content,
        job = Some path
        /\ files (fs st') !! dataset_path = Some content
        /\ length (jsonl_records content) = 5%nat).
Proof.
  intros selected job st'.
  assert (Hsel : forall m, In m selected
             <-> In m memories /\ tag m = Some "new"
                 /\ 8 # 10 < default 0 (confidence m)).
  { intros m. unfold selected. rewrite filter_In, qualifies_iff. reflexivity. }
  assert (Hbig : (5 <= length selected)%nat ->
      job = Some modelfile_path
      /\ files (fs st') !! modelfile_path
         = Some (("FROM " +:+ target_model +:+ String Py.LF EmptyString)
                 +:+ ("TRAIN " +:+ dataset_path +:+ String Py.LF EmptyString))
      /\ exists content,
           files (fs st') !! dataset_path = Some content
           /\ jsonl_records content = map record_of selected).
  { intros Hlen. unfold job, st', schedule_training. fold selected.
    destruct (Nat.ltb_spec (length selected) 5) as [Hlt | _]; [lia|].
    cbn [fst snd]. split; [reflexivity|]. split.
    - cbn. apply lookup_insert_eq.
    - exists (dataset_text selected). split.
      + cbn. rewrite lookup_insert_ne by discriminate. apply lookup_insert_eq.
      + apply jsonl_records_dataset. }
  split; [exact Hsel|]. split; [|split; [exact Hbig|]].
  - intros Hlen. unfold job, st', schedule_training. fold selected.
    destruct (Nat.ltb_spec (length selected) 5) as [_ | Hge]; [|lia].
    cbn. rewrite !in_app_iff. cbn. tauto.
  - intros Hlen.
    destruct Hbig as (Hjob & _ & content & Hc & Hrec); [lia|].
    exists modelfile_path, content. split; [exact Hjob|]. split; [exact Hc|].
    now rewrite Hrec, length_map.
Qed.

(** *** Micro fine-tuning credit *)

(** The state just before the threshold test, and the step as a whole,
    with the credit read back from the dictionary made explicit. *)
Lemma micro_finetune_step_eq (debate_json : Debate.DebateOutcome)
    (validated : list Memory) (model_a model_b now : string) (st : State F) :
  let diff :=
    (Z.of_nat (String.length (Debate.resp_a debate_json))
     - Z.of_nat (String.length (Debate.resp_b debate_json)))%Z in
  let loser := if (diff <? 0)%Z then model_a else model_b in
  let delta := Float.div (Float.of_int (Z.abs diff)) Float.thousand in
  let raised := Float.add (credit st loser) delta in
  let st0 := emit Stdout (MicroCalled model_a model_b) st in
  let st1 :=
    emit Logger (Nudge loser delta)
      (log_metrics loser delta now
         (emit Stdout (Nudge loser delta) (set_credit loser raised st0))) in
  micro_finetune_step debate_json validated model_a model_b now st
  = if (diff =? 0)%Z then st0
    else if Float.gtb raised Float.one && negb (bool_decide (validated = []))
         then set_credit loser Float.zero
                (snd (schedule_training validated loser
                        (emit Logger ThresholdReached
                           (emit Stdout ThresholdReached st1))))
         else st1.
Proof.
  intros diff loser delta raised st0 st1.
  unfold micro_finetune_step. fold diff. cbv zeta. fold loser delta.
  destruct (diff =? 0)%Z; [reflexivity|].
  change (_micro_state (emit Stdout (MicroCalled model_a model_b) st))
    with (_micro_state st).
  fold (credit st loser). fold raised. fold st0. fold st1.
  replace (default Float.zero (_micro_state st1 !! loser)) with raised
    by (cbn; now rewrite lookup_insert_eq).
  destruct (Float.gtb raised Float.one && negb (bool_decide (validated = [])));
    [|reflexivity].
  now destruct (schedule_training validated loser _).
Qed.


End WithFloat.

(** Seven memories of which exactly five qualify: a job is returned and
    the dataset has five records.  Four qualifying memories: nothing is
    returned. *)
Lemma schedule_training_threshold_witness :
  let st0 := initial Float.binary64 in
  (exists path content,
     fst (schedule_training seven_memories "llama3" st0) = Some path
     /\ files (fs (snd (schedule_training seven_memories "llama3" st0)))
          !! dataset_path = Some content
     /\ length (jsonl_records content) = 5%nat)
  /\ fst (schedule_training (tail seven_memories) "llama3" st0) = None.
Proof.
  intros st0. split.
  - apply (schedule_training_threshold seven_memories "llama3" st0).
    vm_compute. reflexivity.
  - apply (schedule_training_threshold (tail seven_memories) "llama3" st0).
    vm_compute. lia.
Defined.

Example dataset_of_two :
  dataset_text [new_memory "hi" 1; new_memory "it's" 1]
  = ("{" +:+ String DQ ("prompt" +:+ String DQ (": 'hi', "
       +:+ String DQ ("response" +:+ String DQ ": 'hi'}"))))
    +:+ String Py.LF
    (("{" +:+ String DQ ("prompt" +:+ String DQ (": "
       +:+ String DQ ("it's" +:+ String DQ (", "
       +:+ String DQ ("response" +:+ String DQ (": "
       +:+ String DQ ("it's" +:+ String DQ "}"))))))))
     +:+ String Py.LF EmptyString).
Proof. vm_compute. reflexivity. Qed.

Example repr_escapes_line_feed :
  repr ("a" +:+ String Py.LF "b") = "'a\nb'".
Proof. vm_compute. reflexivity. Qed.


(** The same four calls, in double precision and in exact arithmetic.
    The doubles of the credit after each call are those of 0.2,
    0.6000000000000001, 0.9000000000000001 and 1.0000000000000002: the
    fourth call finds the credit above 1.0, writes the dataset and the
    job descriptor and resets the credit.  The exact sum is one, which
    is not above 1.0: exact arithmetic would leave the credit at one and
    write no file. *)
Example credit_crosses_threshold_by_rounding :
  let short_by n := outcome_with_answers "hi" (Debate.text_of_length (2 + n)) in
  let run (F : Float.Ops) :=
    fold_left
      (fun st n =>
         micro_finetune_step (short_by n) seven_memories "a" "b" "t0" st)
      [200; 400; 300; 100]%nat (initial F) in
  let before (F : Float.Ops) :=
    fold_left
      (fun st n =>
         micro_finetune_step (short_by n) seven_memories "a" "b" "t0" st)
      [200; 400; 300]%nat (initial F) in
  credit (before Float.binary64) "a"
  = SpecFloat.S754_finite false 8106479329266894 (-53)
  /\ _micro_state (run Float.binary64) !! "a" = Some (SpecFloat.S754_zero false)
  /\ files (fs (run Float.binary64)) !! dataset_path
     = Some (dataset_text (List.filter qualifies seven_memories))
  /\ is_Some (files (fs (run Float.binary64)) !! modelfile_path)
  /\ Qeq_bool (credit (run Float.exact) "a") 1 = true
  /\ files (fs (run Float.exact)) = ∅.
Proof. vm_compute. repeat split; try reflexivity. eexists; reflexivity. Qed.

(** Three cycles in which model A is shorter by 400 characters, with a
    validated memory at hand: A's credit is 0.4, then 0.8, then reset to
    0.0 in the call that takes it above one. *)
Example credit_accumulates_then_resets :
  let step :=
    micro_finetune_step (outcome_with_answers "hi" (Debate.text_of_length 402))
      [new_memory "m1" 1] "a" "b" "t0" in
  let s1 := step (initial Float.binary64) in
  let s2 := step s1 in
  let s3 := step s2 in
  credit s1 "a" = Float.div (Float.of_int 4) (Float.of_int 10)
  /\ credit s2 "a" = Float.div (Float.of_int 8) (Float.of_int 10)
  /\ _micro_state s3 !! "a" = Some Float.zero
  /\ _micro_state s3 !! "b" = None.
Proof. vm_compute. repeat split; reflexivity. Qed.

End TrainerProps.

(** * Further properties *)

(** ** Sums and means *)

Module MeanFacts.

Lemma fold_left_Qplus_acc (xs : list Q) (a : Q) :
  fold_left Qplus xs a == a + fold_left Qplus xs 0.
Proof.
  revert a. induction xs as [|x xs IH]; intros a; simpl.
  - ring.
  - rewrite (IH (a + x)), (IH (0 + x)). ring.
Qed.

Lemma sum_cons (x : Q) (xs : list Q) : Py.sum (x :: xs) == x + Py.sum xs.
Proof.
  unfold Py.sum. simpl. rewrite fold_left_Qplus_acc. ring.
Qed.

Lemma of_nat_S (n : nat) : Py.of_nat (S n) == Py.of_nat n + 1.
Proof.
  unfold Py.of_nat. rewrite Nat2Z.inj_succ, <- Z.add_1_r, inject_Z_plus.
  reflexivity.
Qed.

Lemma of_nat_pos (n : nat) : (0 < n)%nat -> 0 < Py.of_nat n.
Proof.
  intros Hn. unfold Py.of_nat, Qlt, inject_Z. cbn. lia.
Qed.

Lemma sum_ge (lo : Q) (xs : list Q) :
  Forall (fun x => lo <= x) xs -> Py.of_nat (length xs) * lo <= Py.sum xs.
Proof.
  induction 1 as [|x xs Hx _ IH].
  - cbn. unfold Py.of_nat. cbn. rewrite Qmult_0_l. apply Qle_refl.
  - cbn [length]. rewrite sum_cons, of_nat_S.
    assert (E : (Py.of_nat (length xs) + 1) * lo
                == lo + Py.of_nat (length xs) * lo) by ring.
    rewrite E. now apply Qplus_le_compat.
Qed.

Lemma sum_le (hi : Q) (xs : list Q) :
  Forall (fun x => x <= hi) xs -> Py.sum xs <= Py.of_nat (length xs) * hi.
Proof.
  induction 1 as [|x xs Hx _ IH].
  - cbn. unfold Py.of_nat. cbn. rewrite Qmult_0_l. apply Qle_refl.
  - cbn [length]. rewrite sum_cons, of_nat_S.
    assert (E : (Py.of_nat (length xs) + 1) * hi
                == hi + Py.of_nat (length xs) * hi) by ring.
    rewrite E. now apply Qplus_le_compat.
Qed.

(** The mean of a non-empty list lies between any bounds of its
    elements. *)
Lemma mean_ge (lo : Q) (xs : list Q) :
  xs <> [] -> Forall (fun x => lo <= x) xs ->
  lo <= Py.sum xs / Py.of_nat (length xs).
Proof.
  intros Hne Hall. apply Qle_shift_div_l.
  - apply of_nat_pos. destruct xs; [congruence | cbn; lia].
  - rewrite Qmult_comm. now apply sum_ge.
Qed.

Lemma mean_le (hi : Q) (xs : list Q) :
  xs <> [] -> Forall (fun x => x <= hi) xs ->
  Py.sum xs / Py.of_nat (length xs) <= hi.
Proof.
  intros Hne Hall. apply Qle_shift_div_r.
  - apply of_nat_pos. destruct xs; [congruence | cbn; lia].
  - rewrite Qmult_comm. now apply sum_le.
Qed.

End MeanFacts.

(** ** drift.py, continued *)

Module DriftMore.
Import Drift.

Lemma field_mean_ge (f : Metrics -> option Q) (lo : Q) (l : list Metrics) :
  l <> [] -> Forall (fun m => lo <= default 0 (f m)) l -> lo <= field_mean f l.
Proof.
  intros Hne Hall. unfold field_mean.
  rewrite <- (length_map (fun m => default 0 (f m)) l).
  apply MeanFacts.mean_ge.
  - destruct l; [congruence | discriminate].
  - now apply Forall_map.
Qed.

Lemma field_mean_le (f : Metrics -> option Q) (hi : Q) (l : list Metrics) :
  l <> [] -> Forall (fun m => default 0 (f m) <= hi) l -> field_mean f l <= hi.
Proof.
  intros Hne Hall. unfold field_mean.
  rewrite <- (length_map (fun m => default 0 (f m)) l).
  apply MeanFacts.mean_le.
  - destruct l; [congruence | discriminate].
  - now apply Forall_map.
Qed.

(** X1. Until more samples than its capacity have been inserted, the
    window holds every sample, in insertion order, and a non-empty
    window's summary is the mean of each field over all of them. *)
Theorem window_keeps_all_below_capacity (n : nat) (samples : list Metrics) :
  (length samples <= n)%nat ->
  let w := updates {| size := n; _window := [] |} samples in
  _window w = samples
  /\ (samples <> [] ->
      compute_summary w
      = {| agreement_rate := Some (field_mean agreement_rate samples);
           guardian_override_rate :=
             Some (field_mean guardian_override_rate samples);
           avg_response_length_delta :=
             Some (field_mean avg_response_length_delta samples) |}).
Proof.
  intros Hlen w.
  assert (Hw : _window w = samples).
  { unfold w. rewrite DriftProps.updates_window.
    replace (length samples - n)%nat with 0%nat by lia. reflexivity. }
  split; [exact Hw|].
  intros Hne. rewrite DriftProps.compute_summary_mean by now rewrite Hw.
  now rewrite Hw.
Qed.

Lemma window_keeps_all_below_capacity_witness :
  let samples := [sample 1 0 10; sample 0 1 30] in
  let w := updates {| size := 3; _window := [] |} samples in
  _window w = samples
  /\ compute_summary w
     = {| agreement_rate := Some (field_mean agreement_rate samples);
          guardian_override_rate :=
            Some (field_mean guardian_override_rate samples);
          avg_response_length_delta :=
            Some (field_mean avg_response_length_delta samples) |}.
Proof.
  intros samples w.
  destruct (window_keeps_all_below_capacity 3 samples) as [Hw Hs];
    [cbn; lia|].
  split; [exact Hw | apply Hs; discriminate].
Defined.

(** X3. A window of capacity 0 never holds a sample, so its summary is
    always the all-zero one and drift is flagged after every update,
    whatever the samples are. *)
Theorem zero_capacity_always_flags_drift (samples : list Metrics) :
  let w := updates {| size := 0; _window := [] |} samples in
  _window w = []
  /\ compute_summary w = sample 0 0 0
  /\ check_drift (compute_summary w) = true.
Proof.
  intros w.
  assert (Hw : _window w = []).
  { unfold w. rewrite DriftProps.updates_window, Nat.sub_0_r.
    apply skipn_all. }
  split; [exact Hw|].
  unfold compute_summary. rewrite Hw. split; reflexivity.
Qed.

End DriftMore.

(** ** mood.py and debate.py, continued *)

Module DebateMore.
Import Py Debate.

(** [rng.choice] returns an element of the sequence and advances the
    generator by one draw. *)
Lemma choice_in {A} (rng : Rng.Random) (x : A) (xs : list A) :
  In (fst (Rng.choice rng x xs)) (x :: xs)
  /\ snd (Rng.choice rng x xs)
     = {| Rng.draws := Rng.draws rng; Rng.pos := S (Rng.pos rng) |}.
Proof.
  unfold Rng.choice, Rng._randbelow. cbn [fst snd]. split; [|reflexivity].
  apply nth_In. cbn [length]. apply Nat.mod_upper_bound. lia.
Qed.

(** X5. [pick_mood] always returns one of the five moods of [MOODS] and
    consumes exactly one draw of the generator. *)
Theorem pick_mood_in_MOODS (rng : Rng.Random) :
  In (fst (Mood.pick_mood rng)) Mood.MOODS
  /\ snd (Mood.pick_mood rng)
     = {| Rng.draws := Rng.draws rng; Rng.pos := S (Rng.pos rng) |}.
Proof. apply choice_in. Qed.

(** The shape of a run of [debate_once] once the two moods are drawn and
    the two calls have returned. *)
Lemma debate_once_cases user_input rng llama_a llama_b pick_mood first
    ma rng1 mb rng2 ra rb :
  pick_mood rng = (ma, rng1) ->
  pick_mood rng1 = (mb, rng2) ->
  llama_a 0%nat [user_prompt user_input] (mood_prompt ma) = inr ra ->
  llama_b 0%nat [user_prompt user_input] (mood_prompt mb) = inr rb ->
  debate_once user_input rng llama_a llama_b pick_mood first
  = match extract_text ra with
    | inl e => (inl e, rng2)
    | inr ta =>
        match extract_text rb with
        | inl e => (inl e, rng2)
        | inr tb =>
            let diff := Z.abs (Z.of_nat (String.length ta)
                               - Z.of_nat (String.length tb)) in
            if (diff <? 10)%Z then
              (inr {| input := user_input; mood_a := ma; resp_a := ta;
                      mood_b := mb; resp_b := tb;
                      winner := fst (Rng.choice rng2 "A" ["B"]);
                      reasoning := "similar length; random tie break" |},
               snd (Rng.choice rng2 "A" ["B"]))
            else
              (inr {| input := user_input; mood_a := ma; resp_a := ta;
                      mood_b := mb; resp_b := tb;
                      winner := if (String.length tb <? String.length ta)%nat
                                then "A" else "B";
                      reasoning := "longer answer preferred" |}, rng2)
        end
    end.
Proof.
  intros Hma Hmb Ha Hb. unfold debate_once. rewrite Hma, Hmb. cbv zeta.
  replace (gather first _ _) with (@inr exn _ (ra, rb))
    by (unfold gather; rewrite Ha, Hb; now destruct first).
  destruct (extract_text ra) as [e | ta]; [reflexivity|].
  destruct (extract_text rb) as [e | tb]; [reflexivity|].
  cbv zeta. destruct (_ <? 10)%Z; [|reflexivity].
  now destruct (Rng.choice rng2 "A" ["B"]).
Qed.

(** X6. Every outcome [debate_once] returns is complete: the winner is
    "A" or "B" (also on a tie), the reasoning is one of the two notes, the
    input is the one given and the two moods are the two the picker drew,
    in that order. *)
Theorem debate_outcome_is_complete user_input rng llama_a llama_b pick_mood
    first out rng' :
  debate_once user_input rng llama_a llama_b pick_mood first = (inr out, rng') ->
  (winner out = "A" \/ winner out = "B")
  /\ (reasoning out = "similar length; random tie break"
      \/ reasoning out = "longer answer preferred")
  /\ input out = user_input
  /\ mood_a out = fst (pick_mood rng)
  /\ mood_b out = fst (pick_mood (snd (pick_mood rng))).
Proof.
  unfold debate_once.
  destruct (pick_mood rng) as [ma rng1]. cbn [fst snd].
  destruct (pick_mood rng1) as [mb rng2]. cbn [fst].
  destruct (gather first _ _) as [e | [ra rb]]; [discriminate|].
  destruct (extract_text ra) as [e | ta]; [discriminate|].
  destruct (extract_text rb) as [e | tb]; [discriminate|].
  destruct (_ <? 10)%Z.
  - pose proof (DebateProps.choice_two rng2 "A" "B") as Hw.
    destruct (Rng.choice rng2 "A" ["B"]) as [w r].
    intros [= <- <-]. cbn [winner reasoning input mood_a mood_b fst] in *. tauto.
  - intros [= <- <-]. cbn [winner reasoning input mood_a mood_b].
    destruct (String.length tb <? String.length ta)%nat; tauto.
Qed.

Lemma debate_outcome_is_complete_witness :
  exists out rng',
    debate_once "q" (constant_rng 1)
      (answering (text_of_length 50)) (answering (text_of_length 45))
      Mood.pick_mood AFirst = (inr out, rng')
    /\ (winner out = "A" \/ winner out = "B")
    /\ mood_a out = "optimistic".
Proof.
  eexists _, _. split; [vm_compute; reflexivity|].
  destruct (debate_outcome_is_complete "q" (constant_rng 1)
              (answering (text_of_length 50)) (answering (text_of_length 45))
              Mood.pick_mood AFirst _ _ eq_refl) as (Hw & _ & _ & Hm & _).
  split; [exact Hw | exact Hm].
Defined.

(** X8. With [pick_mood] as the mood picker, a debate consumes two draws
    of the generator for the moods, and a third one exactly when it
    returns an outcome decided by the tie break; the sequence of draws
    itself is never changed.  A debate that raises has consumed two. *)
Theorem debate_consumes_two_or_three_draws user_input rng llama_a llama_b first :
  let run := debate_once user_input rng llama_a llama_b Mood.pick_mood first in
  Rng.draws (snd run) = Rng.draws rng
  /\ Rng.pos (snd run)
     = (Rng.pos rng
        + match fst run with
          | inl _ => 2
          | inr out =>
              if String.eqb (reasoning out) "similar length; random tie break"
              then 3 else 2
          end)%nat.
Proof.
  intros run. unfold run, debate_once.
  destruct (choice_in rng "critical"
              ["optimistic"; "skeptical"; "creative"; "analytical"])
    as [_ H1].
  unfold Mood.pick_mood.
  destruct (Rng.choice rng _ _) as [ma rng1]. cbn [snd] in H1. subst rng1.
  match goal with
  | |- context [Rng.choice ?r "critical" ?l] =>
      destruct (choice_in r "critical" l) as [_ H2];
      destruct (Rng.choice r "critical" l) as [mb rng2]
  end.
  cbn [snd] in H2. subst rng2.
  destruct (gather first _ _) as [e | [ra rb]];
    [cbn; split; [reflexivity | lia]|].
  destruct (extract_text ra) as [e | ta]; [cbn; split; [reflexivity | lia]|].
  destruct (extract_text rb) as [e | tb]; [cbn; split; [reflexivity | lia]|].
  destruct (_ <? 10)%Z.
  - match goal with
    | |- context [Rng.choice ?r "A" ["B"]] =>
        destruct (choice_in r "A" ["B"]) as [_ H3];
        destruct (Rng.choice r "A" ["B"]) as [w rng3]
    end.
    cbn [snd] in H3. subst rng3. cbn. split; [reflexivity | lia].
  - cbn. split; [reflexivity | lia].
Qed.

(** X24. A failure of an agent call ends the debate: when one of the two
    calls raises and the other returns, the debate raises the exception
    of the failed call, whichever call finishes first; when both raise,
    it raises the exception of the call that fails first.  In no such run
    is there an outcome, while the two moods have been drawn.  An outcome
    needs the answers of both calls and then does not depend on which
    came first.  Only the first invocation of each agent is consulted:
    agents that would answer on a later invocation change nothing. *)
Theorem debate_failure_propagates user_input rng llama_a llama_b pick_mood
    ma rng1 mb rng2 :
  pick_mood rng = (ma, rng1) ->
  pick_mood rng1 = (mb, rng2) ->
  let call_a := llama_a 0%nat [user_prompt user_input] (mood_prompt ma) in
  let call_b := llama_b 0%nat [user_prompt user_input] (mood_prompt mb) in
  let run := debate_once user_input rng llama_a llama_b pick_mood in
  (forall ea rb first,
     call_a = inl ea -> call_b = inr rb -> run first = (inl ea, rng2))
  /\ (forall ra eb first,
        call_a = inr ra -> call_b = inl eb -> run first = (inl eb, rng2))
  /\ (forall ea eb,
        call_a = inl ea -> call_b = inl eb ->
        run AFirst = (inl ea, rng2) /\ run BFirst = (inl eb, rng2))
  /\ (forall first out rng',
        run first = (inr out, rng') ->
        exists ra rb, call_a = inr ra /\ call_b = inr rb
                      /\ extract_text ra = inr (resp_a out)
                      /\ extract_text rb = inr (resp_b out))
  /\ (forall ra rb, call_a = inr ra -> call_b = inr rb ->
        run AFirst = run BFirst)
  /\ (forall llama_a' llama_b' first,
        (forall msgs mp, llama_a' 0%nat msgs mp = llama_a 0%nat msgs mp) ->
        (forall msgs mp, llama_b' 0%nat msgs mp = llama_b 0%nat msgs mp) ->
        debate_once user_input rng llama_a' llama_b' pick_mood first = run first).
Proof.
  intros Hma Hmb call_a call_b run.
  pose proof (fun la lb first =>
                DebateProps.debate_once_gather user_input rng la lb pick_mood
                  first ma rng1 mb rng2 Hma Hmb) as Hrun.
  split; [|split; [|split; [|split; [|split]]]].
  - intros ea rb first Ha Hb. unfold run. rewrite Hrun. fold call_a call_b.
    rewrite Ha, Hb. now destruct first.
  - intros ra eb first Ha Hb. unfold run. rewrite Hrun. fold call_a call_b.
    rewrite Ha, Hb. now destruct first.
  - intros ea eb Ha Hb. unfold run. rewrite !Hrun. fold call_a call_b.
    rewrite Ha, Hb. split; reflexivity.
  - intros first out rng' Hout. unfold run in Hout. rewrite Hrun in Hout.
    fold call_a call_b in Hout.
    destruct (gather first call_a call_b) as [e | [ra rb]] eqn:G;
      [discriminate|].
    apply DebateProps.gather_inr in G. destruct G as [Ga Gb]. simpl in Ga, Gb.
    exists ra, rb. split; [exact Ga|]. split; [exact Gb|].
    rewrite (debate_once_cases user_input rng _ _ pick_mood first
               ma rng1 mb rng2 ra rb Hma Hmb eq_refl eq_refl) in Hout.
    destruct (extract_text ra) as [e | ta]; [discriminate|].
    destruct (extract_text rb) as [e | tb]; [discriminate|].
    cbv zeta in Hout.
    destruct (_ <? 10)%Z in Hout; injection Hout as <- _; split; reflexivity.
  - intros ra rb Ha Hb. unfold run.
    rewrite !(debate_once_cases user_input rng _ _ pick_mood _
                ma rng1 mb rng2 ra rb Hma Hmb Ha Hb).
    reflexivity.
  - intros la' lb' first Ha' Hb'. unfold run. rewrite !Hrun.
    rewrite Ha', Hb'. reflexivity.
Qed.

(** Agent A fails on its first invocation, although a retry would have
    succeeded, and agent B fails too: the debate raises the error of
    whichever call fails first.  When B answers, A's error is raised
    under both orders. *)
Lemma debate_failure_propagates_witness :
  let rng2 := {| Rng.draws := fun _ => 0%nat; Rng.pos := 2 |} in
  let both first :=
    debate_once "q" (constant_rng 0) (flaky "late answer") (failing "timeout")
      Mood.pick_mood first in
  let one first :=
    debate_once "q" (constant_rng 0) (flaky "late answer") (answering "ok")
      Mood.pick_mood first in
  both AFirst = (inl (RuntimeError "connection refused"), rng2)
  /\ both BFirst = (inl (RuntimeError "timeout"), rng2)
  /\ one AFirst = (inl (RuntimeError "connection refused"), rng2)
  /\ one BFirst = (inl (RuntimeError "connection refused"), rng2).
Proof.
  intros rng2 both one.
  destruct (debate_failure_propagates "q" (constant_rng 0)
              (flaky "late answer") (failing "timeout") Mood.pick_mood
              _ _ _ _ eq_refl eq_refl) as (_ & _ & Hboth & _).
  destruct (Hboth _ _ eq_refl eq_refl) as [HA HB].
  destruct (debate_failure_propagates "q" (constant_rng 0)
              (flaky "late answer") (answering "ok") Mood.pick_mood
              _ _ _ _ eq_refl eq_refl) as (Hone & _).
  split; [exact HA|]. split; [exact HB|].
  split; exact (Hone _ _ _ eq_refl eq_refl).
Defined.

End DebateMore.

(** ** llama_api.py and runtest.py *)

Module RunTestProps.
Import Py Debate.

Section Chat.
Variable str_upper : string -> string.

#[local] Abbreviation chat := (LlamaApi.chat str_upper).
#[local] Abbreviation agent := (LlamaApi.agent str_upper).

(** The text of the non-system messages, which is all [chat] reads. *)
#[local] Abbreviation user_parts msgs :=
  (map content
     (List.filter (fun m => negb (String.eqb (role m) "system")) msgs)).

(** The answer of [chat], with the mood message already filtered out. *)
Lemma chat_eq (model : string) (msgs : list message) (mp : string) :
  chat model msgs mp
  = let content :=
      strip (str_upper model +:+ ">>> " +:+ LlamaApi.join_space (user_parts msgs)) in
    ret {| choices := Some [content];
           repr := "{'choices': [{'message': {'content': "
                   +:+ Trainer.repr content +:+ "}}]}" |}.
Proof.
  unfold LlamaApi.chat. destruct (negb (String.eqb mp EmptyString)); reflexivity.
Qed.

(** X9. The answer of the offline [chat] stub depends on the model name
    and on the contents of the non-system messages only: the mood prompt
    and every system message are dropped before the answer is built, and
    the call never raises. *)
Theorem chat_ignores_mood_and_system_messages (model : string)
    (msgs1 msgs2 : list message) (mp1 mp2 : string) :
  user_parts msgs1 = user_parts msgs2 ->
  chat model msgs1 mp1 = chat model msgs2 mp2
  /\ exists resp, chat model msgs1 mp1 = ret resp.
Proof.
  intros Hparts. rewrite !chat_eq, Hparts. split; [reflexivity | now eexists].
Qed.

(** X10. When both agents are the offline stub under the same model name
    (the default configuration), every debate returns an outcome with two
    identical answers, decided by the random tie break; the cycle's
    length delta is 0, its agreement rate 1, and [micro_finetune_step] on
    that outcome changes nothing but the console. *)
Theorem same_model_debate_is_a_tie (model user_input : string)
    (rng : Rng.Random) (pick_mood : MoodPicker) (first : completion) :
  exists out rng',
    debate_once user_input rng (agent model) (agent model) pick_mood first
    = (inr out, rng')
    /\ resp_a out = resp_b out
    /\ reasoning out = "similar length; random tie break"
    /\ RunTest.cycle_metrics out = Drift.sample 1 0 0
    /\ forall (F : Float.Ops) validated model_a model_b now
              (st : Trainer.State F),
         Trainer.micro_finetune_step out validated model_a model_b now st
         = Trainer.emit Trainer.Stdout (Trainer.MicroCalled model_a model_b) st.
Proof.
  destruct (pick_mood rng) as [ma rng1] eqn:Hma.
  destruct (pick_mood rng1) as [mb rng2] eqn:Hmb.
  pose proof (chat_eq model [user_prompt user_input] (mood_prompt ma)) as Ha.
  pose proof (chat_eq model [user_prompt user_input] (mood_prompt mb)) as Hb.
  cbv zeta in Ha, Hb.
  set (content := strip _) in Ha, Hb.
  rewrite (DebateMore.debate_once_cases user_input rng (agent model)
             (agent model) pick_mood first ma rng1 mb rng2 _ _ Hma Hmb Ha Hb).
  cbn [extract_text choices ret]. cbv zeta.
  rewrite Z.sub_diag. cbn [Z.abs Z.ltb Z.compare].
  eexists _, _. split; [reflexivity|].
  cbn [resp_a resp_b reasoning]. split; [reflexivity|]. split; [reflexivity|].
  split.
  - unfold RunTest.cycle_metrics. cbn [winner resp_a resp_b].
    rewrite Z.sub_diag.
    destruct (DebateProps.choice_two rng2 "A" "B") as [-> | ->]; reflexivity.
  - intros F validated model_a model_b now st.
    unfold Trainer.micro_finetune_step. cbn [resp_a resp_b].
    now rewrite Z.sub_diag.
Qed.

End Chat.

Lemma chat_ignores_mood_and_system_messages_witness :
  LlamaApi.chat Validator.upper "llama3"
    [{| role := "system"; content := "be brief" |};
     {| role := "user"; content := "hello" |}] "You feel critical today."
  = LlamaApi.chat Validator.upper "llama3"
      [{| role := "user"; content := "hello" |}] EmptyString.
Proof.
  apply (chat_ignores_mood_and_system_messages Validator.upper "llama3").
  reflexivity.
Defined.

Example chat_answer :
  option_map choices
    (match LlamaApi.chat Validator.upper "llama3"
             [{| role := "user"; content := "hello" |}] "You feel critical today."
     with inr r => Some r | inl _ => None end)
  = Some (Some ["LLAMA3>>> hello"]).
Proof. vm_compute. reflexivity. Qed.

(** With agreement at least 0.4 and override rate at most 0.5, drift is
    decided by the length delta alone. *)
Lemma check_drift_by_delta (m : Drift.Metrics) :
  4 # 10 <= default 1 (Drift.agreement_rate m) ->
  default 0 (Drift.guardian_override_rate m) <= 5 # 10 ->
  Drift.check_drift m
  = Py.gtb (default 0 (Drift.avg_response_length_delta m)) 100.
Proof.
  intros Ha Hg. unfold Drift.check_drift.
  apply PyFacts.ltb_ge in Ha. apply PyFacts.gtb_le in Hg.
  rewrite Ha, Hg. now destruct (Py.gtb _ 100).
Qed.

(** X11. In a window filled by [run_cycle] from debate outcomes (whose
    winner is always "A" or "B"), every sample has agreement rate 1 and
    guardian override rate 0, so the summary is flagged exactly when the
    mean response length delta of the window exceeds 100: the other two
    thresholds can never fire. *)
Theorem cycle_drift_is_decided_by_length_delta (w : Drift.DriftWindow)
    (outcomes : list DebateOutcome) :
  outcomes <> [] ->
  Forall (fun out => winner out = "A" \/ winner out = "B") outcomes ->
  Drift._window w = map RunTest.cycle_metrics outcomes ->
  Drift.agreement_rate (Drift.compute_summary w)
  = Some (Drift.field_mean Drift.agreement_rate (Drift._window w))
  /\ 1 <= Drift.field_mean Drift.agreement_rate (Drift._window w)
  /\ Drift.field_mean Drift.guardian_override_rate (Drift._window w) <= 0
  /\ (Drift.check_drift (Drift.compute_summary w) = true
      <-> 100 < Drift.field_mean Drift.avg_response_length_delta
                  (Drift._window w)).
Proof.
  intros Hne Hwin Hw.
  assert (Hwne : Drift._window w <> []).
  { rewrite Hw. destruct outcomes; [congruence | discriminate]. }
  assert (Ha : 1 <= Drift.field_mean Drift.agreement_rate (Drift._window w)).
  { apply DriftMore.field_mean_ge; [exact Hwne|].
    rewrite Hw. apply Forall_map. eapply Forall_impl; [exact Hwin|].
    intros out [E | E]; cbn; rewrite E; discriminate. }
  assert (Hg : Drift.field_mean Drift.guardian_override_rate (Drift._window w)
               <= 0).
  { apply DriftMore.field_mean_le; [exact Hwne|].
    rewrite Hw. apply Forall_map. apply Forall_forall.
    intros out _. cbn. discriminate. }
  rewrite (DriftProps.compute_summary_mean w Hwne).
  split; [reflexivity|]. split; [exact Ha|]. split; [exact Hg|].
  rewrite check_drift_by_delta.
  - cbn. apply PyFacts.gtb_gt.
  - cbn. eapply Qle_trans; [|exact Ha]. discriminate.
  - cbn. eapply Qle_trans; [exact Hg|]. discriminate.
Qed.

Lemma cycle_drift_is_decided_by_length_delta_witness :
  let outcomes :=
    [Trainer.outcome_with_answers "hi" (text_of_length 402);
     Trainer.outcome_with_answers "hello" "hi"] in
  let w := {| Drift.size := 10;
              Drift._window := map RunTest.cycle_metrics outcomes |} in
  Drift.check_drift (Drift.compute_summary w) = true.
Proof.
  intros outcomes w.
  destruct (cycle_drift_is_decided_by_length_delta w outcomes)
    as (_ & _ & _ & Hiff).
  - discriminate.
  - repeat constructor; cbn; tauto.
  - reflexivity.
  - apply Hiff. vm_compute. reflexivity.
Defined.

End RunTestProps.

(** ** memoryloop.py, continued *)

Module MemoryLoopMore.
Import MemoryLoop.

Lemma tag_texts (ratio : string -> string -> Q) (seen : gset string)
    (chunks : list string) :
  map text (fst (tag_with_local_model ratio seen chunks)) = chunks.
Proof.
  revert seen. induction chunks as [|c chunks IH]; intros seen; [reflexivity|].
  cbn [tag_with_local_model]. specialize (IH ({[c]} ∪ seen)).
  destruct (tag_with_local_model ratio ({[c]} ∪ seen) chunks) as [results s].
  cbn in *. now rewrite IH.
Qed.

Section Loop.
Context {World Log : Type}.
Variable debate_candidate : World -> string -> string -> string * Log * World.
Variable guardian_fn : World -> string -> Log -> Verdict * World.

#[local] Abbreviation loop := (filter_loop debate_candidate guardian_fn).
#[local] Abbreviation step := (filter_step debate_candidate guardian_fn).

(** One iteration enters its item in exactly one of the two lists. *)
Lemma filter_step_shape idx item w :
  exists w',
    (exists r, step idx item (([], [], []), w) = (([], [r], []), w')
               /\ r_text r = text item)
    \/ (exists v, step idx item (([], [], []), w)
                  = (([v], [], [v_confidence v]), w')
                  /\ v_text v = text item /\ v_tag v = tag item).
Proof.
  unfold filter_step.
  destruct (debate_candidate w (pretty idx) (text item)) as [[status log] w1].
  destruct (negb (String.eqb status "ACCEPTED")).
  - exists w1. left. eexists. cbn [app]. split; reflexivity.
  - destruct (guardian_fn w1 (text item) log) as [vd w2].
    exists w2. destruct (bool_decide (verdict vd = Some "reject")).
    + left. eexists. cbn [app]. split; reflexivity.
    + right.
      exists {| v_text := text item; v_tag := tag item;
                v_confidence := default 0 (confidence vd) |}.
      cbn [app]. repeat split; reflexivity.
Qed.

(** What the loop has collected after any list of tagged items. *)
Lemma filter_loop_inv tagged idx w :
  let '((v, r, c), _) := loop idx tagged (([], [], []), w) in
  (length v + length r = length tagged)%nat
  /\ c = map v_confidence v
  /\ Forall (fun x => exists item, In item tagged /\ v_text x = text item
                                   /\ v_tag x = tag item) v
  /\ Forall (fun x => In (r_text x) (map text tagged)) r.
Proof.
  revert idx w. induction tagged as [|item tagged IH]; intros idx w.
  - cbn. repeat split; constructor.
  - cbn [filter_loop].
    destruct (filter_step_shape idx item w)
      as (w1 & [(r0 & -> & Hr0) | (v0 & -> & Hv0 & Ht0)]);
      rewrite (MemoryLoopProps.filter_loop_prefix debate_candidate guardian_fn);
      specialize (IH (S idx) w1);
      destruct (loop (S idx) tagged (([], [], []), w1)) as [[[v r] c] w2];
      destruct IH as (Hlen & Hc & Hv & Hr); cbn [app length map].
    + repeat split.
      * lia.
      * exact Hc.
      * eapply Forall_impl; [exact Hv|].
        intros x (it & Hin & E1 & E2). exists it. split; [now right | now split].
      * constructor; [left; now rewrite Hr0|].
        eapply Forall_impl; [exact Hr|]. intros x Hx. now right.
    + repeat split.
      * lia.
      * now rewrite Hc.
      * constructor; [exists item; split; [now left | now split]|].
        eapply Forall_impl; [exact Hv|].
        intros x (it & Hin & E1 & E2). exists it. split; [now right | now split].
      * eapply Forall_impl; [exact Hr|]. intros x Hx. now right.
Qed.

(** [filter_memory] in terms of its loop. *)
Lemma filter_memory_eq ratio debate_json seen w :
  let tagged := fst (tag_with_local_model ratio seen (candidates debate_json)) in
  let res := loop 0 tagged (([], [], []), w) in
  let out := fst (fst (filter_memory debate_candidate guardian_fn ratio
                         debate_json seen w)) in
  validated out = fst (fst (fst res))
  /\ rejected out = snd (fst (fst res))
  /\ overall_confidence out
     = match snd (fst res) with
       | [] => 0
       | _ :: _ => Py.sum (snd (fst res)) / Py.of_nat (length (snd (fst res)))
       end.
Proof.
  cbv zeta. unfold filter_memory.
  destruct (tag_with_local_model ratio seen (candidates debate_json))
    as [tagged seen'].
  cbn [fst]. destruct (loop 0 tagged (([], [], []), w)) as [[[v r] c] w'].
  repeat split.
Qed.

(** X12. [filter_memory] drops no candidate: every non-empty chunk of the
    reasoning is entered in exactly one of [validated] and [rejected], so
    the two lists together have as many entries as there are candidates;
    every entry carries the text of a candidate, and a validated entry
    carries the tag that candidate was given. *)
Theorem filter_memory_partitions_candidates (ratio : string -> string -> Q)
    (debate_json : Debate.DebateOutcome) (seen : gset string) (w : World) :
  let out := fst (fst (filter_memory debate_candidate guardian_fn ratio
                         debate_json seen w)) in
  let tagged := fst (tag_with_local_model ratio seen (candidates debate_json)) in
  (length (validated out) + length (rejected out)
   = length (candidates debate_json))%nat
  /\ Forall (fun v => exists item, In item tagged /\ v_text v = text item
                                   /\ v_tag v = tag item) (validated out)
  /\ Forall (fun v => In (v_text v) (candidates debate_json)) (validated out)
  /\ Forall (fun r => In (r_text r) (candidates debate_json)) (rejected out).
Proof.
  intros out tagged.
  destruct (filter_memory_eq ratio debate_json seen w) as (Hv & Hr & _).
  fold out in Hv, Hr. fold tagged in Hv, Hr.
  pose proof (filter_loop_inv tagged 0 w) as Hinv.
  destruct (loop 0 tagged (([], [], []), w)) as [[[v r] c] w'].
  cbn [fst snd] in Hv, Hr. rewrite Hv, Hr.
  destruct Hinv as (Hlen & _ & Hvs & Hrs).
  pose proof (tag_texts ratio seen (candidates debate_json)) as Htexts.
  fold tagged in Htexts.
  split; [rewrite Hlen, <- Htexts; symmetry; apply length_map|].
  split; [exact Hvs|]. split.
  - eapply Forall_impl; [exact Hvs|].
    intros x (item & Hin & E & _). rewrite <- Htexts, E. now apply in_map.
  - now rewrite <- Htexts.
Qed.

(** X13. The confidence [filter_memory] returns is computed from the
    validated entries alone: it is the sum of their confidences, taken in
    the order of the entries, divided by their number, and 0.0 when
    nothing was validated.  The confidences of rejected and contested
    chunks do not enter it. *)
Theorem filter_memory_confidence_is_mean (ratio : string -> string -> Q)
    (debate_json : Debate.DebateOutcome) (seen : gset string) (w : World) :
  let out := fst (fst (filter_memory debate_candidate guardian_fn ratio
                         debate_json seen w)) in
  let confs := map v_confidence (validated out) in
  (validated out = [] -> overall_confidence out = 0)
  /\ (validated out <> [] ->
      overall_confidence out
      = Py.sum confs / Py.of_nat (length (validated out))).
Proof.
  intros out confs.
  destruct (filter_memory_eq ratio debate_json seen w) as (Hv & _ & Hc).
  fold out in Hv, Hc.
  pose proof (filter_loop_inv
                (fst (tag_with_local_model ratio seen (candidates debate_json)))
                0 w) as Hinv.
  destruct (loop 0 _ (([], [], []), w)) as [[[v r] c] w'].
  cbn [fst snd] in Hv, Hc. destruct Hinv as (_ & Hcv & _).
  unfold confs. rewrite Hv in *. subst c. split.
  - intros ->. exact Hc.
  - intros Hne. rewrite Hc. destruct v as [|x v]; [congruence|].
    cbn [map length]. now rewrite length_map.
Qed.

(** When the engine never answers ACCEPTED, an iteration only appends to
    [rejected], whatever the guardian is. *)
Lemma filter_loop_never_accepted tagged idx v r c w :
  (forall w id t, fst (fst (debate_candidate w id t)) <> "ACCEPTED") ->
  exists r' w',
    loop idx tagged ((v, r, c), w) = ((v, r ++ r', c), w')
    /\ map r_text r' = map text tagged
    /\ Forall (fun x => r_reason x <> "ACCEPTED") r'
    /\ forall (guardian' : World -> string -> Log -> Verdict * World),
         filter_loop debate_candidate guardian' idx tagged ((v, r, c), w)
         = ((v, r ++ r', c), w').
Proof.
  intros Hnever. revert idx r w.
  induction tagged as [|item tagged IH]; intros idx r w.
  - exists [], w. rewrite app_nil_r. repeat split; constructor.
  - cbn [filter_loop].
    assert (Hstep : forall g,
              filter_step debate_candidate g idx item ((v, r, c), w)
              = ((v, r ++ [{| r_text := text item;
                              r_reason :=
                                fst (fst (debate_candidate w (pretty idx)
                                            (text item))) |}], c),
                 snd (debate_candidate w (pretty idx) (text item)))).
    { intros g. unfold filter_step.
      specialize (Hnever w (pretty idx) (text item)).
      destruct (debate_candidate w (pretty idx) (text item))
        as [[status log] w1].
      cbn [fst snd] in *.
      destruct (String.eqb_spec status "ACCEPTED"); [contradiction|].
      reflexivity. }
    rewrite Hstep.
    destruct (IH (S idx) (r ++ [{| r_text := text item;
                                   r_reason :=
                                     fst (fst (debate_candidate w (pretty idx)
                                                 (text item))) |}])
                (snd (debate_candidate w (pretty idx) (text item))))
      as (r' & w' & E & Ht & Hreason & Hg).
    eexists (_ :: r'), w'. rewrite E, <- app_assoc. cbn [app].
    split; [reflexivity|]. split; [cbn; now rewrite Ht|].
    split; [constructor; [apply Hnever | exact Hreason]|].
    intros g. rewrite Hstep, Hg, <- app_assoc. reflexivity.
Qed.

End Loop.

(** X14. When the consensus engine accepts no candidate (every
    sub-debate ends REJECTED or DEADLOCKED), the guardian has no say: the
    result is the same under any two guardians, nothing is validated, the
    confidence is 0.0, and every candidate is in [rejected], in order,
    with a reason other than ACCEPTED. *)
Theorem consensus_rejection_bypasses_guardian {World Log : Type}
    (debate_candidate : World -> string -> string -> string * Log * World)
    (guardian1 guardian2 : World -> string -> Log -> Verdict * World)
    (ratio : string -> string -> Q) (debate_json : Debate.DebateOutcome)
    (seen : gset string) (w : World) :
  (forall w id t, fst (fst (debate_candidate w id t)) <> "ACCEPTED") ->
  let run g := filter_memory debate_candidate g ratio debate_json seen w in
  run guardian1 = run guardian2
  /\ validated (fst (fst (run guardian1))) = []
  /\ overall_confidence (fst (fst (run guardian1))) = 0
  /\ map r_text (rejected (fst (fst (run guardian1)))) = candidates debate_json
  /\ Forall (fun r => r_reason r <> "ACCEPTED")
       (rejected (fst (fst (run guardian1)))).
Proof.
  intros Hnever run. unfold run, filter_memory.
  pose proof (tag_texts ratio seen (candidates debate_json)) as Htexts.
  destruct (tag_with_local_model ratio seen (candidates debate_json))
    as [tagged seen'].
  cbn [fst] in Htexts.
  destruct (filter_loop_never_accepted debate_candidate guardian1 tagged 0
              [] [] [] w Hnever) as (r' & w' & _ & Ht & Hreason & Hg).
  rewrite (Hg guardian1), (Hg guardian2). cbn.
  repeat split; [now rewrite Ht | exact Hreason].
Qed.

Lemma consensus_rejection_bypasses_guardian_witness :
  rejected
    (fst (fst (filter_memory deadlocked_engine (guardian_rejecting "Alpha wins")
                 Difflib.ratio (outcome_with_reasoning "Alpha wins. Beta loses")
                 ∅ tt)))
  = [{| r_text := "Alpha wins"; r_reason := "DEADLOCKED" |};
     {| r_text := "Beta loses"; r_reason := "DEADLOCKED" |}]
  /\ validated
       (fst (fst (filter_memory deadlocked_engine
                    (guardian_rejecting "Alpha wins") Difflib.ratio
                    (outcome_with_reasoning "Alpha wins. Beta loses") ∅ tt)))
     = [].
Proof.
  split; [vm_compute; reflexivity|].
  apply (consensus_rejection_bypasses_guardian deadlocked_engine
           (guardian_rejecting "Alpha wins") (guardian_rejecting "Alpha wins")
           Difflib.ratio (outcome_with_reasoning "Alpha wins. Beta loses") ∅ tt).
  intros w id t. discriminate.
Defined.

Lemma filter_memory_confidence_is_mean_witness :
  let out :=
    fst (fst (filter_memory accepting_engine (guardian_rejecting "Alpha wins")
                Difflib.ratio (outcome_with_reasoning "Alpha wins. Beta loses")
                ∅ tt)) in
  length (validated out) = 1%nat
  /\ length (rejected out) = 1%nat
  /\ overall_confidence out
     = Py.sum (map v_confidence (validated out))
       / Py.of_nat (length (validated out)).
Proof.
  intros out.
  destruct (filter_memory_confidence_is_mean accepting_engine
              (guardian_rejecting "Alpha wins") Difflib.ratio
              (outcome_with_reasoning "Alpha wins. Beta loses") ∅ tt)
    as [_ Hmean].
  split; [reflexivity|]. split; [reflexivity|].
  apply Hmean. vm_compute. discriminate.
Defined.

(** *** Splitting *)

Lemma lstrip_all_space (s : list ascii) :
  forallb Py.is_space s = true -> Py.lstrip s = [].
Proof.
  induction s as [|c s IH]; [reflexivity|].
  cbn. intros H. apply andb_true_iff in H. destruct H as [Hc Hs].
  rewrite Hc. now apply IH.
Qed.

(** X15. A reasoning text made of white space only (the empty text
    included) has no candidate: [filter_memory] returns empty lists and
    confidence 0.0, calls neither the engine nor the guardian, and leaves
    the seen set as it was. *)
Theorem blank_reasoning_yields_nothing {World Log : Type}
    (debate_candidate : World -> string -> string -> string * Log * World)
    (guardian_fn : World -> string -> Log -> Verdict * World)
    (ratio : string -> string -> Q) (debate_json : Debate.DebateOutcome)
    (seen : gset string) (w : World) :
  forallb Py.is_space (list_ascii_of_string (Debate.reasoning debate_json))
  = true ->
  candidates debate_json = []
  /\ filter_memory debate_candidate guardian_fn ratio debate_json seen w
     = ({| validated := []; rejected := []; overall_confidence := 0 |},
        seen, w).
Proof.
  intros Hblank.
  assert (Hc : candidates debate_json = []).
  { unfold candidates, split_into_chunks, Py.strip_chars.
    rewrite (lstrip_all_space _ Hblank). reflexivity. }
  split; [exact Hc|]. unfold filter_memory. rewrite Hc. reflexivity.
Qed.

Lemma blank_reasoning_yields_nothing_witness :
  filter_memory accepting_engine (guardian_rejecting "x") Difflib.ratio
    (outcome_with_reasoning "   ") {["seen before"]} tt
  = ({| validated := []; rejected := []; overall_confidence := 0 |},
     {["seen before"]}, tt).
Proof.
  apply (blank_reasoning_yields_nothing accepting_engine
           (guardian_rejecting "x") Difflib.ratio
           (outcome_with_reasoning "   ") {["seen before"]} tt).
  reflexivity.
Defined.

Lemma split_go_no_terminator (cur s : list ascii) :
  forallb (fun c => negb (is_terminator c)) s = true ->
  split_go false cur s = [rev cur ++ s].
Proof.
  revert cur. induction s as [|c s IH]; intros cur H.
  - cbn. now rewrite app_nil_r.
  - cbn in H. apply andb_true_iff in H. destruct H as [Hc Hs].
    apply negb_true_iff in Hc. cbn [split_go andb]. rewrite Hc. cbn [andb].
    rewrite IH by exact Hs. cbn [rev]. now rewrite <- app_assoc.
Qed.

Lemma lstrip_forallb (P : ascii -> bool) (s : list ascii) :
  forallb P s = true -> forallb P (Py.lstrip s) = true.
Proof.
  induction s as [|c s IH]; [reflexivity|].
  cbn. intros H. destruct (Py.is_space c); [|exact H].
  apply andb_true_iff in H. now apply IH.
Qed.

Lemma rev_forallb (P : ascii -> bool) (s : list ascii) :
  forallb P s = true -> forallb P (rev s) = true.
Proof.
  rewrite !forallb_forall. intros H x Hx. apply H. now apply in_rev.
Qed.

(** X16. A text without any of the characters [.], [?] and [!] is one
    chunk: [split_into_chunks] returns the stripped text alone. *)
Theorem text_without_terminator_is_one_chunk (text : string) :
  forallb (fun c => negb (is_terminator c)) (list_ascii_of_string text) = true ->
  split_into_chunks text = [Py.strip text].
Proof.
  intros H. unfold split_into_chunks, Py.strip.
  rewrite split_go_no_terminator; [reflexivity|].
  unfold Py.strip_chars.
  apply rev_forallb, lstrip_forallb, rev_forallb, lstrip_forallb, H.
Qed.

Lemma text_without_terminator_is_one_chunk_witness :
  split_into_chunks "  longer answer preferred " = ["longer answer preferred"].
Proof.
  apply (text_without_terminator_is_one_chunk "  longer answer preferred ").
  reflexivity.
Defined.

(** *** Chunks seen before *)

(** X17. A chunk that is already in the seen set, and that the
    similarity measure rates above 0.8 against itself, is tagged
    "known"; tagging a list of such chunks marks every one of them
    "known". *)
Theorem seen_chunks_are_known (ratio : string -> string -> Q)
    (seen : gset string) (chunks : list string) :
  Forall (fun c => 8 # 10 < ratio c c) chunks ->
  Forall (fun c => c ∈ seen) chunks ->
  map tag (fst (tag_with_local_model ratio seen chunks))
  = map (fun _ => Tag_value KNOWN) chunks.
Proof.
  intros Hself. revert seen.
  induction Hself as [|c chunks Hc _ IH]; intros seen Hseen; [reflexivity|].
  apply Forall_cons_1 in Hseen. destruct Hseen as [Hin Hrest].
  cbn [tag_with_local_model].
  specialize (IH ({[c]} ∪ seen)).
  destruct (tag_with_local_model ratio ({[c]} ∪ seen) chunks) as [results s].
  cbn [fst map tag] in *. f_equal.
  - replace (Py.gtb (best_similarity ratio seen c) (8 # 10)) with true;
      [reflexivity|].
    symmetry. apply PyFacts.gtb_gt.
    apply MemoryLoopProps.best_similarity_gt; [discriminate|].
    now exists c.
  - apply IH. eapply Forall_impl; [exact Hrest|].
    intros x Hx. apply elem_of_union. now right.
Qed.

Lemma seen_chunks_are_known_witness :
  map tag
    (fst (tag_with_local_model Difflib.ratio
            {["longer answer preferred"]} ["longer answer preferred"]))
  = ["known"].
Proof.
  apply (seen_chunks_are_known Difflib.ratio {["longer answer preferred"]}
           ["longer answer preferred"]).
  - constructor; [|constructor].
    apply PyFacts.gtb_gt. vm_compute. reflexivity.
  - constructor; [|constructor].
    apply elem_of_singleton. reflexivity.
Defined.

End MemoryLoopMore.

(** ** validator.py, continued *)

Module ValidatorMore.
Import Py Validator.

Lemma substring_prefix (n : nat) (s : string) :
  String.prefix (String.substring 0 n s) s = true
  /\ String.length (String.substring 0 n s) = Nat.min (String.length s) n.
Proof.
  revert n. induction s as [|c s IH]; intros [|n]; cbn; try (split; reflexivity).
  destruct (IH n) as [Hp Hl]. destruct (ascii_dec c c); [|congruence].
  split; [exact Hp | now rewrite Hl].
Qed.

Lemma prefix_refl (s : string) : String.prefix s s = true.
Proof.
  induction s as [|c s IH]; [reflexivity|].
  cbn. destruct (ascii_dec c c); [exact IH | congruence].
Qed.

(** X18. With a non-negative [max_tokens_guardian], the messages built
    for the arbiter are a fixed system message and one user message whose
    text is "Evaluate this:", a line feed, and the first
    [max_tokens_guardian] characters of the payload text (the whole text
    when it is not longer than that). *)
Theorem guardian_message_is_truncated_payload (settings : Config.Settings)
    (payload : string) :
  (0 <= Config.max_tokens_guardian settings)%Z ->
  exists text,
    _build_messages_from_payload settings payload
    = [ {| Debate.role := "system";
           Debate.content := "You are a neutral validator of AI responses." |};
        {| Debate.role := "user";
           Debate.content := "Evaluate this:" +:+ String LF text |} ]
    /\ String.prefix text payload = true
    /\ String.length text
       = Nat.min (String.length payload)
           (Z.to_nat (Config.max_tokens_guardian settings)).
Proof.
  intros Hmax. unfold _build_messages_from_payload.
  destruct (Z.ltb_spec (Config.max_tokens_guardian settings)
              (Z.of_nat (String.length payload))) as [Hlt | Hge].
  - exists (slice_to (Config.max_tokens_guardian settings) payload).
    split; [reflexivity|]. unfold slice_to.
    destruct (Z.ltb_spec (Config.max_tokens_guardian settings) 0); [lia|].
    apply substring_prefix.
  - exists payload. split; [reflexivity|]. split; [apply prefix_refl | lia].
Qed.

Lemma guardian_message_is_truncated_payload_witness :
  _build_messages_from_payload
    {| Config.model_a_name := "a"; Config.model_b_name := "b";
       Config.guardian_model := "g"; Config.max_tokens_guardian := 4;
       Config.drift_window_size := 10 |} "abcdefgh"
  = [ {| Debate.role := "system";
         Debate.content := "You are a neutral validator of AI responses." |};
      {| Debate.role := "user";
         Debate.content := "Evaluate this:" +:+ String LF "abcd" |} ].
Proof.
  destruct (guardian_message_is_truncated_payload
              {| Config.model_a_name := "a"; Config.model_b_name := "b";
                 Config.guardian_model := "g"; Config.max_tokens_guardian := 4;
                 Config.drift_window_size := 10 |} "abcdefgh")
    as (text & E & _ & _); [cbn; lia|].
  rewrite E. vm_compute in E. now injection E as <-.
Defined.

Section Retry.
Context {float : Type}.
Variable float_of_string : string -> option float.
Variable zero : float.

#[local] Abbreviation attempt_with create :=
  (attempt_once float_of_string zero create).
#[local] Abbreviation validate_with create :=
  (validate float_of_string zero create).

(** X19. With the package and a key available, the first attempt that
    succeeds ends [validate]: its verdict is returned, and the sleeps
    made are those after the failed attempts before it, 2 then 4 (the
    back-off doubles).  Whatever the arbiter would do from a fourth call
    on is never consulted. *)
Theorem first_success_ends_retries
    (create : nat -> string -> list Debate.message -> result pyval)
    (settings : Config.Settings) (environ : gmap string string)
    (payload api_key_env key : string) :
  environ !! api_key_env = Some key -> key <> EmptyString ->
  let messages := _build_messages_from_payload settings payload in
  (forall (k : nat) (v : Verdict),
     (k < 3)%nat ->
     (forall j, (j < k)%nat ->
        exists e, attempt_with create settings j messages = inl e) ->
     attempt_with create settings k messages = inr v ->
     validate_with create settings true environ payload (PStr api_key_env)
     = (ret v, take k [2; 4; 8]%nat))
  /\ (forall create',
        (forall j model msgs, (j < 3)%nat ->
           create' j model msgs = create j model msgs) ->
        validate_with create' settings true environ payload (PStr api_key_env)
        = validate_with create settings true environ payload
            (PStr api_key_env)).
Proof.
  intros Henv Hkey messages. split.
  - intros k v Hk Hfail Hok. unfold validate. cbn [negb getenv ret].
    rewrite Henv.
    destruct key as [|c key]; [congruence|]. fold messages. cbv zeta.
    destruct k as [|[|[|k]]]; [| | |lia]; cbn [retry_loop].
    + now rewrite Hok.
    + destruct (Hfail 0%nat ltac:(lia)) as [e0 ->]. now rewrite Hok.
    + destruct (Hfail 0%nat ltac:(lia)) as [e0 ->].
      destruct (Hfail 1%nat ltac:(lia)) as [e1 ->]. now rewrite Hok.
  - intros create' Hsame. unfold validate. cbn [negb getenv ret].
    rewrite Henv.
    destruct key as [|c key]; [congruence|]. cbv zeta. cbn [retry_loop].
    unfold attempt_once. rewrite !Hsame by lia. reflexivity.
Qed.

#[local] Abbreviation parse_lines := (parse_lines float_of_string).

Lemma parse_lines_app st l1 l2 :
  parse_lines st (l1 ++ l2)
  = bind (parse_lines st l1) (fun st' => parse_lines st' l2).
Proof.
  revert st. induction l1 as [|line l1 IH]; intros st; [reflexivity|].
  cbn [app Validator.parse_lines].
  destruct (parse_line float_of_string st line) as [e | st1]; [reflexivity|].
  cbn [bind]. apply IH.
Qed.

(** X20. Among several VERDICT lines the last one decides: whatever
    precedes it, the verdict parsed is the text after the colon of the
    last VERDICT line, stripped and in lower case. *)
Theorem last_verdict_line_decides (st : string * string * float)
    (before : list string) (line rest : string) (after : list string) :
  String.prefix "VERDICT:" (upper line) = true ->
  after_colon line = ret rest ->
  Forall (lacks "VERDICT:") after ->
  exists rationale conf,
    parse_lines st (before ++ line :: after)
    = ret (lower (strip rest), rationale, conf).
Proof.
  intros Hpre Hrest Hafter.
  rewrite parse_lines_app.
  destruct (ValidatorProps.parse_lines_total float_of_string st before)
    as ([[v0 r0] c0] & -> & _).
  cbn [bind Validator.parse_lines]. unfold parse_line.
  rewrite Hpre, Hrest. cbn [bind ret].
  destruct (ValidatorProps.parse_lines_total float_of_string
              (lower (strip rest), r0, c0) after)
    as ([[v1 r1] c1] & -> & Hv & _).
  cbn in Hv. rewrite (Hv Hafter). now eexists _, _.
Qed.

End Retry.

Lemma first_success_ends_retries_witness :
  validate toy_float 0
    (fun attempt _ _ =>
       match attempt with
       | 2%nat => ret (chat_completion "VERDICT: accept")
       | _ => raise (RuntimeError "timeout")
       end)
    Config.defaults true environ_with_key "{}" default_key_env
  = (ret {| verdict := "accept"; rationale := EmptyString; confidence := 0 |},
     [2; 4]%nat).
Proof.
  refine (proj1 (first_success_ends_retries toy_float 0 _ Config.defaults
                   environ_with_key "{}" "OPENAI_API_KEY" "sk-test"
                   eq_refl _) 2%nat _ _ _ _).
  - discriminate.
  - lia.
  - intros [|[|j]] Hj; [eexists; reflexivity | eexists; reflexivity | lia].
  - reflexivity.
Defined.

Lemma last_verdict_line_decides_witness :
  exists rationale conf,
    Validator.parse_lines toy_float ("unsure", EmptyString, 0)
      (["VERDICT: accept"; "RATIONALE: fine"] ++
       "verdict:  REJECT " :: ["CONFIDENCE: 0.9"])
    = ret ("reject", rationale, conf).
Proof.
  apply (last_verdict_line_decides toy_float ("unsure", EmptyString, 0)
           ["VERDICT: accept"; "RATIONALE: fine"] "verdict:  REJECT "
           "  REJECT " ["CONFIDENCE: 0.9"]).
  - reflexivity.
  - reflexivity.
  - repeat constructor.
Defined.

End ValidatorMore.

(** ** metrics.py and trainer.py, continued *)

Module TrainerMore.
Import Trainer.

Section WithFloat.

Context {F : Float.Ops}.

(** X21. [log_micro_update] appends one step, holding the clock reading
    and the delta, to the entry of the model (created when absent), adds
    the delta to its total, and leaves the entries of all other models
    alone; so a log in which every total is what adding its step deltas
    one after the other gives stays so. *)
Theorem metrics_log_stays_consistent (model now : string) (delta : Float.t F)
    (data : gmap string (Metrics.Entry F)) :
  let data' := Metrics.log_micro_update model delta now data in
  let old :=
    default {| Metrics.total_delta := Float.zero; Metrics.steps := [] |}
      (data !! model) in
  data' !! model
  = Some {| Metrics.total_delta := Float.add (Metrics.total_delta old) delta;
            Metrics.steps := Metrics.steps old ++ [(now, delta)] |}
  /\ (forall other, other <> model -> data' !! other = data !! other)
  /\ (Metrics.consistent data -> Metrics.consistent data').
Proof.
  intros data' old. unfold data', Metrics.log_micro_update. fold old.
  split; [apply lookup_insert_eq|].
  split; [intros other Hne; now apply lookup_insert_ne|].
  intros Hcons m e Hm.
  destruct (decide (m = model)) as [-> | Hne].
  - rewrite lookup_insert_eq in Hm. injection Hm as <-.
    cbn [Metrics.total_delta Metrics.steps].
    rewrite map_app, fold_left_app. cbn [map fold_left snd]. f_equal.
    unfold old. destruct (data !! model) as [e0|] eqn:E0; cbn [default].
    + exact (Hcons model e0 E0).
    + reflexivity.
  - rewrite lookup_insert_ne in Hm by congruence. exact (Hcons m e Hm).
Qed.

Lemma logged_total_after (loser now : string) (delta : Float.t F)
    (st : State F) (m : string) :
  logged_total (log_metrics loser delta now st) m
  = if decide (m = loser) then Float.add (logged_total st loser) delta
    else logged_total st m.
Proof.
  unfold logged_total, log_metrics, Metrics.log_micro_update. cbn [metrics].
  destruct (decide (m = loser)) as [-> | Hne].
  - rewrite lookup_insert_eq. cbn.
    now destruct (metrics st !! loser).
  - now rewrite lookup_insert_ne by congruence.
Qed.

Hypothesis laws : Float.Laws F.

(** One call keeps the credits between 0.0 and the logged totals. *)
Lemma micro_finetune_step_bounded debate_json validated model_a model_b now
    (st : State F) :
  credits_bounded st ->
  credits_bounded
    (micro_finetune_step debate_json validated model_a model_b now st).
Proof.
  intros Hb.
  rewrite TrainerProps.micro_finetune_step_eq. cbv zeta.
  set (diff := (Z.of_nat (String.length (Debate.resp_a debate_json))
                - Z.of_nat (String.length (Debate.resp_b debate_json)))%Z).
  destruct (Z.eqb_spec diff 0) as [_ | Hd]; [exact Hb|].
  set (loser := if (diff <? 0)%Z then model_a else model_b).
  set (delta := Float.div (Float.of_int (Z.abs diff)) Float.thousand).
  assert (Hpos : Float.leb Float.zero delta = true)
    by (apply (Float.div_nonneg F laws); lia).
  set (st1 := emit Logger (Nudge loser delta) _).
  assert (H1 : forall m,
            credit st1 m
            = (if decide (m = loser) then Float.add (credit st loser) delta
               else credit st m)
            /\ logged_total st1 m
               = (if decide (m = loser)
                  then Float.add (logged_total st loser) delta
                  else logged_total st m)).
  { intros m. split.
    - unfold credit, st1. cbn.
      destruct (decide (m = loser)) as [-> | Hne].
      + now rewrite lookup_insert_eq.
      + now rewrite lookup_insert_ne by congruence.
    - unfold st1.
      change (logged_total (emit Logger (Nudge loser delta) ?s) m)
        with (logged_total s m).
      rewrite logged_total_after.
      destruct (decide (m = loser)); reflexivity. }
  assert (Hb1 : credits_bounded st1).
  { intros m. destruct (H1 m) as [-> ->]. destruct (Hb loser) as [Hl0 Hl1].
    destruct (decide (m = loser)); [|apply Hb].
    split.
    - apply (Float.leb_trans F laws) with (credit st loser); [exact Hl0|].
      now apply (Float.add_increases F laws).
    - now apply (Float.add_monotone F laws). }
  destruct (Float.gtb _ Float.one && negb (bool_decide (validated = [])));
    [|exact Hb1].
  set (st_before := emit Logger ThresholdReached _).
  destruct (TrainerProps.schedule_training_frame validated loser st_before)
    as (Hms & Hmt & _).
  intros m. unfold credit, logged_total. cbn [set_credit _micro_state metrics].
  rewrite Hmt.
  change (metrics st_before) with (metrics st1).
  fold (logged_total st1 m).
  destruct (decide (m = loser)) as [-> | Hne].
  - rewrite lookup_insert_eq. cbn [default].
    split; [apply (Float.leb_zero F laws)|].
    destruct (Hb1 loser) as [Hl0 Hl1].
    exact (Float.leb_trans F laws _ _ _ Hl0 Hl1).
  - rewrite lookup_insert_ne by congruence. rewrite Hms.
    change (_micro_state st_before) with (_micro_state st1).
    apply Hb1.
Qed.

End WithFloat.


Lemma metrics_log_stays_consistent_witness :
  let tenths n := Float.div (Float.of_int n) (@Float.of_int Float.binary64 10) in
  Metrics.consistent
    (Metrics.log_micro_update "a" (tenths 3%Z) "t1"
       (Metrics.log_micro_update "a" (tenths 1%Z) "t0" ∅)).
Proof.
  intros tenths.
  apply (metrics_log_stays_consistent "a" "t1" (tenths 3%Z)).
  apply (metrics_log_stays_consistent "a" "t0" (tenths 1%Z)).
  intros m e Hm. rewrite lookup_empty in Hm. discriminate.
Defined.


(** In double precision, after the four calls that take model A's credit
    above 1.0 and reset it, the credit is 0.0 and the log holds the
    double after one: the bound holds. *)
Example credit_below_logged_total :
  let st :=
    fold_left
      (fun st n =>
         micro_finetune_step
           (outcome_with_answers "hi" (Debate.text_of_length (2 + n)))
           seven_memories "a" "b" "t0" st)
      [200; 400; 300; 100]%nat (initial Float.binary64) in
  credit st "a" = Float.zero
  /\ logged_total st "a" = SpecFloat.S754_finite false 4503599627370497 (-52)
  /\ Float.leb (credit st "a") (logged_total st "a") = true.
Proof. vm_compute. repeat split; reflexivity. Qed.

End TrainerMore.

(** ** runtest.py: one cycle, end to end *)

Module CycleProps.
Import Trainer.

(** With fewer than 5 memories at all, [schedule_training] declines and
    writes no file. *)
Lemma schedule_training_declines {F : Float.Ops} (memories : list Memory)
    (target : string) (st : State F) :
  (length memories < 5)%nat ->
  fst (schedule_training memories target st) = None
  /\ fs (snd (schedule_training memories target st)) = fs st.
Proof.
  intros Hlen. unfold schedule_training.
  pose proof (List.filter_length_le qualifies memories) as Hle.
  destruct (Nat.ltb_spec (length (List.filter qualifies memories)) 5);
    [split; reflexivity | lia].
Qed.

(** The reasoning note of every debate outcome is a single candidate. *)
Lemma debate_reasoning_is_one_candidate user_input rng llama_a llama_b
    pick_mood first out rng' :
  Debate.debate_once user_input rng llama_a llama_b pick_mood first
  = (inr out, rng') ->
  MemoryLoop.candidates out = [Debate.reasoning out].
Proof.
  unfold Debate.debate_once.
  destruct (pick_mood rng) as [ma rng1].
  destruct (pick_mood rng1) as [mb rng2].
  destruct (Debate.gather first _ _) as [e | [ra rb]]; [discriminate|].
  destruct (Debate.extract_text ra) as [e | ta]; [discriminate|].
  destruct (Debate.extract_text rb) as [e | tb]; [discriminate|].
  destruct (_ <? 10)%Z.
  - destruct (Rng.choice rng2 "A" ["B"]) as [w r].
    intros [= <- <-]. reflexivity.
  - intros [= <- <-]. reflexivity.
Qed.

(** X23. Whatever the agents answer, the reasoning of a debate outcome is
    one of two fixed notes without sentence boundary, so a cycle has
    exactly one memory candidate, the note itself, and [filter_memory]
    returns exactly one entry in total.  With at most one validated
    memory the threshold of 5 is out of reach: in a cycle
    [schedule_training] always declines, and neither
    [micro_finetune_step] nor the drift check at the end of [run_cycle]
    ever writes a dataset or job descriptor. *)
Theorem cycle_never_schedules_training user_input rng llama_a llama_b
    pick_mood first out rng'
    {World Log : Type}
    (debate_candidate : World -> string -> string -> string * Log * World)
    (guardian_fn : World -> string -> Log -> MemoryLoop.Verdict * World)
    (ratio : string -> string -> Q) (seen : gset string) (w : World) :
  Debate.debate_once user_input rng llama_a llama_b pick_mood first
  = (inr out, rng') ->
  let mem_out :=
    fst (fst (MemoryLoop.filter_memory debate_candidate guardian_fn ratio out
                seen w)) in
  let validated := map RunTest.to_memory (MemoryLoop.validated mem_out) in
  MemoryLoop.candidates out = [Debate.reasoning out]
  /\ (length (MemoryLoop.validated mem_out)
      + length (MemoryLoop.rejected mem_out) = 1)%nat
  /\ (forall (F : Float.Ops) target (st : State F),
        fst (schedule_training validated target st) = None)
  /\ (forall (F : Float.Ops) model_a model_b now (st : State F),
        fs (micro_finetune_step out validated model_a model_b now st) = fs st)
  /\ (forall (F : Float.Ops) settings drift_window (st : State F),
        fs (snd (RunTest.drift_step settings out
                   (MemoryLoop.validated mem_out) drift_window st)) = fs st).
Proof.
  intros Hrun mem_out validated.
  pose proof (debate_reasoning_is_one_candidate _ _ _ _ _ _ _ _ Hrun) as Hcand.
  assert (Hone : (length (MemoryLoop.validated mem_out)
                  + length (MemoryLoop.rejected mem_out) = 1)%nat).
  { destruct (MemoryLoopMore.filter_memory_eq debate_candidate guardian_fn
                ratio out seen w) as (Hv & Hr & _).
    fold mem_out in Hv, Hr.
    pose proof (MemoryLoopMore.filter_loop_inv debate_candidate guardian_fn
                  (fst (MemoryLoop.tag_with_local_model ratio seen
                          (MemoryLoop.candidates out))) 0 w) as Hinv.
    destruct (MemoryLoop.filter_loop _ _ 0 _ _) as [[[v r] c] w'].
    cbn [fst snd] in Hv, Hr. rewrite Hv, Hr.
    destruct Hinv as (Hlen & _). rewrite Hlen.
    rewrite <- (length_map MemoryLoop.text), MemoryLoopMore.tag_texts, Hcand.
    reflexivity. }
  assert (Hlen : (length validated < 5)%nat)
    by (unfold validated; rewrite length_map; lia).
  split; [exact Hcand|]. split; [exact Hone|]. split; [|split].
  - intros F target st. now apply schedule_training_declines.
  - intros F model_a model_b now st.
    rewrite TrainerProps.micro_finetune_step_eq. cbv zeta.
    destruct (_ =? 0)%Z; [reflexivity|].
    destruct (Float.gtb _ Float.one && _); [|reflexivity].
    cbn [set_credit fs].
    now rewrite (proj2 (schedule_training_declines validated _ _ Hlen)).
  - intros F settings drift_window st. unfold RunTest.drift_step.
    destruct (Drift.check_drift _); [|reflexivity].
    cbn [snd]. fold validated.
    now rewrite (proj2 (schedule_training_declines validated _ _ Hlen)).
Qed.

Lemma cycle_never_schedules_training_witness :
  exists out rng',
    Debate.debate_once "q" (Debate.constant_rng 0)
      (Debate.answering "hi") (Debate.answering (Debate.text_of_length 402))
      Mood.pick_mood Debate.AFirst = (inr out, rng')
    /\ MemoryLoop.candidates out = ["longer answer preferred"]
    /\ fst (schedule_training
              (map RunTest.to_memory
                 (MemoryLoop.validated
                    (fst (fst (MemoryLoop.filter_memory
                                 MemoryLoop.accepting_engine
                                 (MemoryLoop.guardian_rejecting "x")
                                 Difflib.ratio out ∅ tt)))))
              "llama3" (initial Float.binary64)) = None.
Proof.
  eexists _, _. split; [vm_compute; reflexivity|].
  match goal with
  | |- context [MemoryLoop.candidates ?o] => set (out := o)
  end.
  destruct (cycle_never_schedules_training "q" (Debate.constant_rng 0)
              (Debate.answering "hi")
              (Debate.answering (Debate.text_of_length 402))
              Mood.pick_mood Debate.AFirst out
              {| Rng.draws := fun _ => 0%nat; Rng.pos := 2 |}
              MemoryLoop.accepting_engine (MemoryLoop.guardian_rejecting "x")
              Difflib.ratio ∅ tt) as (Hc & _ & Hs & _).
  - vm_compute. reflexivity.
  - split; [exact Hc | apply Hs].
Defined.

End CycleProps.
